(** * healthkit.py: records, workouts and per-workout timeseries

    A shallow embedding of [src/healthkit.py].  Python objects become
    records, dictionaries become [gmap]s, sets become [gset]s, and every
    operation that can raise returns a [result].  The library calls the
    module relies on ([datetime] comparison and [isoformat], [sorted],
    [str.lower], [in] on strings, [pandas.Series] with a [dtype],
    [Index.duplicated]) are modelled next to the code that uses them. *)

From Stdlib Require Import ZArith Ascii String Floats OrderedTypeEx.
From stdpp Require Import base option list gmap strings fin_maps sorting.

Local Open Scope string_scope.
Local Open Scope list_scope.
Local Open Scope Z_scope.

(** ** Exceptions and the error monad *)

Inductive exn : Type :=
  | TypeError
  | KeyError (k : string)
  | ValueError
  | IndexError
  | AttributeError
  | ParserError.

Inductive result (A : Type) : Type :=
  | Ok (a : A)
  | Raise (e : exn).
Arguments Ok {A} a.
Arguments Raise {A} e.

Definition rbind {A B : Type} (m : result A) (f : A -> result B) : result B :=
  match m with
  | Ok a => f a
  | Raise e => Raise e
  end.

Notation "'do' x <- m ; k" := (rbind m (fun x => k))
  (at level 10, x name, m at level 100, k at level 200).

Definition is_ok {A : Type} (m : result A) : bool :=
  match m with Ok _ => true | Raise _ => false end.

(** [[f(x) for x in l]] where [f] may raise: the first exception wins. *)
Fixpoint mapM {A B : Type} (f : A -> result B) (l : list A) : result (list B) :=
  match l with
  | [] => Ok []
  | x :: l' =>
      do y <- f x;
      do ys <- mapM f l';
      Ok (y :: ys)
  end.

(** [[x for x in l if p(x)]] where [p] may raise. *)
Fixpoint filterM {A : Type} (p : A -> result bool) (l : list A) : result (list A) :=
  match l with
  | [] => Ok []
  | x :: l' =>
      do b <- p x;
      do ys <- filterM p l';
      Ok (if b then x :: ys else ys)
  end.

(** [for x in l: acc = body(acc, x)] with exceptions. *)
Fixpoint foldM {A S : Type} (body : S -> A -> result S) (acc : S) (l : list A) : result S :=
  match l with
  | [] => Ok acc
  | x :: l' =>
      do acc' <- body acc x;
      foldM body acc' l'
  end.

(** ** Strings as Python uses them *)

(** [k in s] for two strings: [k] occurs in [s] as a contiguous substring. *)
Fixpoint is_substring (k s : string) : bool :=
  String.prefix k s ||
  match s with
  | EmptyString => false
  | String _ s' => is_substring k s'
  end.

(** [str.lower] on the ASCII range. *)
Definition ascii_lower (c : ascii) : ascii :=
  let n := N_of_ascii c in
  if ((65 <=? n) && (n <=? 90))%N then ascii_of_N (n + 32) else c.

Fixpoint str_lower (s : string) : string :=
  match s with
  | EmptyString => EmptyString
  | String c s' => String (ascii_lower c) (str_lower s')
  end.

(** [a < b] on [str]: lexicographic on code points. *)
Definition str_lt (a b : string) : bool := String.ltb a b.

(** ** [datetime.datetime]

    [utcoffset] is the offset of the [tzinfo] in minutes; it is [None]
    for a datetime without time zone (offset-naive), which is what
    [dateutil] returns for a text without offset. *)

Record datetime : Type := mkdatetime {
  year : Z; month : Z; day : Z;
  hour : Z; minute : Z; second : Z; microsecond : Z;
  utcoffset : option Z
}.

Definition is_aware (t : datetime) : bool :=
  match utcoffset t with
  | Some _ => true
  | None => false
  end.

Definition is_leap (y : Z) : bool :=
  (y mod 4 =? 0) && (negb (y mod 100 =? 0) || (y mod 400 =? 0)).

Definition days_before_year (y : Z) : Z :=
  let y' := y - 1 in y' * 365 + y' / 4 - y' / 100 + y' / 400.

Definition days_in_month (y m : Z) : Z :=
  if m =? 2 then (if is_leap y then 29 else 28)
  else if (m =? 4) || (m =? 6) || (m =? 9) || (m =? 11) then 30
  else 31.

Fixpoint days_before_month_aux (y : Z) (n : nat) : Z :=
  match n with
  | O => 0
  | S n' => days_before_month_aux y n' + days_in_month y (Z.of_nat n)
  end.

Definition days_before_month (y m : Z) : Z :=
  days_before_month_aux y (Z.to_nat (m - 1)).

Definition ymd2ord (y m d : Z) : Z :=
  days_before_year y + days_before_month y m + d.

(** Microseconds since the epoch of the proleptic calendar: in UTC for an
    aware datetime, of the fields as they stand for a naive one.  Two
    datetimes that can be compared (both aware or both naive) are compared
    by this quantity. *)
Definition utc_micros (t : datetime) : Z :=
  ((((ymd2ord (year t) (month t) (day t) * 24 + hour t) * 60
     + minute t - default 0 (utcoffset t)) * 60) + second t) * 1000000 + microsecond t.

(** Order and equality of two datetimes that can be compared.  The
    operator [<=] of Python is [py_le] below; equality is used on the
    index of a series, whose dates all passed the window test of one
    workout and so are all aware or all naive. *)
Definition dt_le (a b : datetime) : bool := utc_micros a <=? utc_micros b.
Definition dt_lt (a b : datetime) : bool := utc_micros a <? utc_micros b.
Definition dt_eq (a b : datetime) : bool := utc_micros a =? utc_micros b.

(** [a <= b] on datetimes: an offset-naive and an offset-aware datetime
    cannot be ordered. *)
Definition py_le (a b : datetime) : result bool :=
  if Bool.eqb (is_aware a) (is_aware b) then Ok (dt_le a b) else Raise TypeError.

(** Decimal digits, zero-padded to a fixed width ([%02d], [%04d], [%06d]). *)
Definition digit_char (n : Z) : ascii := ascii_of_N (48 + Z.to_N (n mod 10)).

Fixpoint zero_pad (width : nat) (n : Z) : string :=
  match width with
  | O => EmptyString
  | S w => zero_pad w (n / 10) +:+ String (digit_char n) EmptyString
  end.

(** The text of the UTC offset, [+HH:MM]; nothing for a naive datetime. *)
Definition offset_text (o : option Z) : string :=
  match o with
  | None => ""
  | Some off =>
      let sign := if off <? 0 then "-" else "+" in
      let a := Z.abs off in
      sign +:+ zero_pad 2 (a / 60) +:+ ":" +:+ zero_pad 2 (a mod 60)
  end.

(** [datetime.isoformat()]: [YYYY-MM-DDTHH:MM:SS[.ffffff][+HH:MM]]. *)
Definition isoformat (t : datetime) : string :=
  zero_pad 4 (year t) +:+ "-" +:+ zero_pad 2 (month t) +:+ "-" +:+ zero_pad 2 (day t)
  +:+ "T" +:+ zero_pad 2 (hour t) +:+ ":" +:+ zero_pad 2 (minute t)
  +:+ ":" +:+ zero_pad 2 (second t)
  +:+ (if microsecond t =? 0 then "" else "." +:+ zero_pad 6 (microsecond t))
  +:+ offset_text (utcoffset t).

(** ** [sorted(l, key=...)]

    Python's [sorted] is stable and compares keys with [<] only.  A
    stable insertion sort computes the same list. *)
Section Sorted.
Context {A K : Type} (key : A -> K) (lt : K -> K -> bool).

Fixpoint insert_sorted (x : A) (l : list A) : list A :=
  match l with
  | [] => [x]
  | y :: l' =>
      if lt (key y) (key x) then y :: insert_sorted x l' else x :: y :: l'
  end.

Fixpoint sorted (l : list A) : list A :=
  match l with
  | [] => []
  | x :: l' => insert_sorted x (sorted l')
  end.
End Sorted.


(** ** The objects of the module *)

(** A record's [value]: a [float] when the record has a unit, otherwise
    whatever [xml_element.get('value')] returned (a [str] or [None]). *)
Inductive pyvalue : Type :=
  | VFloat (f : float)
  | VStr (s : string)
  | VNone.

(** [HKRecord].  Attributes read with [.get] may be [None]. *)
Record HKRecord : Type := mkHKRecord {
  rec_type : option string;
  source_name : option string;
  source_version : option string;
  device : option string;
  rec_unit : option string;          (* [self.unit] *)
  creation_date : datetime;
  start_date : datetime;
  end_date : datetime;
  value : pyvalue
}.

(** [HKWorkout]; the fields shared with [HKRecord] carry a [wk_] prefix. *)
Record HKWorkout : Type := mkHKWorkout {
  activity_type : option string;
  duration : float;
  duration_unit : option string;
  total_distance : float;
  total_distance_unit : option string;
  total_energy_burned : float;
  total_energy_burned_unit : option string;
  wk_source_name : option string;
  wk_source_version : option string;
  wk_device : option string;
  wk_creation_date : datetime;
  wk_start_date : datetime;
  wk_end_date : datetime
}.

(** The [ts_source] argument as a caller can pass it. *)
Inductive ts_source_arg : Type :=
  | TsNone
  | TsList (l : list string)
  | TsTuple (l : list string)
  | TsSet (l : list string)
  | TsStr (s : string).

Definition isinstance_list (a : ts_source_arg) : bool :=
  match a with TsList _ => true | _ => false end.

Definition is_not_None (a : ts_source_arg) : bool :=
  match a with TsNone => false | _ => true end.

(** [key in r.rec_type]: both operands must be strings. *)
Definition py_in_str (key s : option string) : result bool :=
  match key, s with
  | Some k, Some t => Ok (is_substring k t)
  | _, _ => Raise TypeError
  end.

(** [r.source_name in ts_source]. *)
Definition py_in_source (s : option string) (a : ts_source_arg) : result bool :=
  match a with
  | TsList l | TsTuple l | TsSet l =>
      Ok (match s with Some x => bool_decide (x ∈ l) | None => false end)
  | TsStr t =>
      match s with Some x => Ok (is_substring x t) | None => Raise TypeError end
  | TsNone => Raise TypeError
  end.

(** [l[0]]. *)
Definition index0 {A : Type} (l : list A) : result A :=
  match l with
  | x :: _ => Ok x
  | [] => Raise IndexError
  end.

(** [key.lower()]. *)
Definition py_lower (key : option string) : result string :=
  match key with
  | Some k => Ok (str_lower k)
  | None => Raise AttributeError
  end.

(** [Index.duplicated()] with the default [keep='first']: an entry is
    marked when an earlier entry carries an equal timestamp. *)
Fixpoint duplicated_from (seen : list datetime) (idx : list datetime) : list bool :=
  match idx with
  | [] => []
  | t :: idx' => existsb (dt_eq t) seen :: duplicated_from (t :: seen) idx'
  end.

Definition duplicated (idx : list datetime) : list bool := duplicated_from [] idx.

(** [ts[mask]] for a boolean mask. *)
Fixpoint mask_select {A : Type} (mask : list bool) (l : list A) : list A :=
  match mask, l with
  | b :: mask', x :: l' => if b then x :: mask_select mask' l' else mask_select mask' l'
  | _, _ => []
  end.

(** [pd.Series(values, dtype=None)] on an object array.  Numbers are
    left as they are.  Once a string is met, an array that holds nothing
    but strings and missing values ([None], NaN) becomes a string series,
    in which every missing value is NaN; any other array is kept. *)
Definition is_str (v : pyvalue) : bool :=
  match v with VStr _ => true | _ => false end.

Definition is_missing (v : pyvalue) : bool :=
  match v with
  | VNone => true
  | VFloat f => PrimFloat.is_nan f
  | VStr _ => false
  end.

Definition infers_str (values : list pyvalue) : bool :=
  existsb is_str values && forallb (fun v => is_str v || is_missing v) values.

Definition na_to_nan (v : pyvalue) : pyvalue :=
  if is_missing v then VFloat nan else v.

Definition infer_objects (ts_array : list (datetime * pyvalue))
  : list (datetime * pyvalue) :=
  if infers_str (map snd ts_array)
  then map (fun row => (fst row, na_to_nan (snd row))) ts_array
  else ts_array.

(** The output dictionary of [build_single_workout_timeseries]. *)
Record workout_data : Type := mkworkout_data {
  workout : HKWorkout;
  records : gmap (option string) (list HKRecord);
  timeseries : gmap (option string) (list (datetime * pyvalue));
  units : gmap (option string) (option string)
}.

(** The three dictionaries the loop of the builder fills. *)
Record by_type : Type := mkby_type {
  records_by_type : gmap (option string) (list HKRecord);
  ts_by_type : gmap (option string) (list (datetime * pyvalue));
  units_by_type : gmap (option string) (option string)
}.

Section Healthkit.

(** [dateutil.parser.parse] and [float] on a [str]: [None] when they
    raise. *)
Variable parse_datetime : string -> option datetime.
Variable float_of_str : string -> option float.

Definition dateutil_parse (s : string) : result datetime :=
  match parse_datetime s with
  | Some d => Ok d
  | None => Raise ParserError
  end.

(** [float(x)] for [x] a [str] or [None]. *)
Definition py_float (x : option string) : result float :=
  match x with
  | None => Raise TypeError
  | Some s =>
      match float_of_str s with
      | Some f => Ok f
      | None => Raise ValueError
      end
  end.

(** [xml_element.attrib[k]]. *)
Definition attrib_item (xml_element : gmap string string) (k : string) : result string :=
  match xml_element !! k with
  | Some v => Ok v
  | None => Raise (KeyError k)
  end.

(** [HKRecord.__init__]. *)
Definition HKRecord_init (xml_element : gmap string string) : result HKRecord :=
  let rec_type := xml_element !! "type" in
  let source_name := xml_element !! "sourceName" in
  let source_version := xml_element !! "sourceVersion" in
  let device := xml_element !! "device" in
  let unit := xml_element !! "unit" in
  do cs <- attrib_item xml_element "creationDate";
  do creation_date <- dateutil_parse cs;
  do ss <- attrib_item xml_element "startDate";
  do start_date <- dateutil_parse ss;
  do es <- attrib_item xml_element "endDate";
  do end_date <- dateutil_parse es;
  do value <-
    match unit with
    | None =>
        Ok (match xml_element !! "value" with Some s => VStr s | None => VNone end)
    | Some _ =>
        do f <- py_float (xml_element !! "value"); Ok (VFloat f)
    end;
  Ok (mkHKRecord rec_type source_name source_version device unit
        creation_date start_date end_date value).

(** [HKWorkout.__init__]. *)
Definition HKWorkout_init (xml_element : gmap string string) : result HKWorkout :=
  let activity_type := xml_element !! "workoutActivityType" in
  do duration <- py_float (xml_element !! "duration");
  let duration_unit := xml_element !! "durationUnit" in
  do total_distance <- py_float (xml_element !! "totalDistance");
  let total_distance_unit := xml_element !! "totalDistanceUnit" in
  do total_energy_burned <- py_float (xml_element !! "totalEnergyBurned");
  let total_energy_burned_unit := xml_element !! "totalEnergyBurnedUnit" in
  let source_name := xml_element !! "sourceName" in
  let source_version := xml_element !! "sourceVersion" in
  let device := xml_element !! "device" in
  do cs <- attrib_item xml_element "creationDate";
  do creation_date <- dateutil_parse cs;
  do ss <- attrib_item xml_element "startDate";
  do start_date <- dateutil_parse ss;
  do es <- attrib_item xml_element "endDate";
  do end_date <- dateutil_parse es;
  Ok (mkHKWorkout activity_type duration duration_unit total_distance
        total_distance_unit total_energy_burned total_energy_burned_unit
        source_name source_version device creation_date start_date end_date).

(** [pd.Series(values, index=..., dtype=float)] converts every value;
    with [dtype=None] the dtype is inferred from the object array. *)
Definition to_float (v : pyvalue) : result pyvalue :=
  match v with
  | VFloat f => Ok (VFloat f)
  | VStr s =>
      match float_of_str s with
      | Some f => Ok (VFloat f)
      | None => Raise ValueError
      end
  | VNone => Ok (VFloat nan)
  end.

Definition pd_Series (ts_array : list (datetime * pyvalue)) (as_float : bool)
  : result (list (datetime * pyvalue)) :=
  if as_float
  then mapM (fun row => do v <- to_float (snd row); Ok (fst row, v)) ts_array
  else Ok (infer_objects ts_array).

(** [ts[~ts.index.duplicated()]]. *)
Definition drop_duplicated (ts : list (datetime * pyvalue)) : list (datetime * pyvalue) :=
  mask_select (map negb (duplicated (map fst ts))) ts.

(** [records_of_workout]: the records that start inside the workout,
    sorted on the ISO text of their start date.  The chained comparison
    [s_date <= r.start_date <= e_date] evaluates its second half only
    when the first holds. *)
Definition records_of_workout (workout : HKWorkout) (records : list HKRecord)
  : result (list HKRecord) :=
  let s_date := wk_start_date workout in
  let e_date := wk_end_date workout in
  do selected <- filterM (fun r =>
                   do after_start <- py_le s_date (start_date r);
                   if after_start then py_le (start_date r) e_date else Ok false)
                   records;
  Ok (sorted (fun x => isoformat (start_date x)) str_lt selected).

(** [keys = set([r.rec_type for r in records_of_workout])]. *)
Definition type_keys (rows : list HKRecord) : gset (option string) :=
  list_to_set (map rec_type rows).

(** The rows of [ts_array] for one key. *)
Definition ts_array_of (rows : list HKRecord) (ts_source : ts_source_arg)
    (key : option string) : result (list (datetime * pyvalue)) :=
  if is_not_None ts_source then
    do sel <- filterM (fun r =>
                do b <- py_in_str key (rec_type r);
                if b then py_in_source (source_name r) ts_source else Ok false) rows;
    Ok (map (fun r => (start_date r, value r)) sel)
  else
    do sel <- filterM (fun r => py_in_str key (rec_type r)) rows;
    Ok (map (fun r => (start_date r, value r)) sel).

(** One iteration of [for key in keys]. *)
Definition build_key (rows : list HKRecord) (rem_duplicates : bool)
    (ts_source : ts_source_arg) (acc : by_type) (key : option string) : result by_type :=
  (* RECORDS *)
  do grp <- filterM (fun r => py_in_str key (rec_type r)) rows;
  let records_by_type' := <[key := grp]> (records_by_type acc) in
  (* UNITS *)
  do first <- index0 grp;
  let units' := <[key := rec_unit first]> (units_by_type acc) in
  (* TIMESERIES *)
  do ts_array <- ts_array_of rows ts_source key;
  if bool_decide (ts_array = []) then
    Ok (mkby_type records_by_type' (ts_by_type acc) units')
  else
    do lowered <- py_lower key;
    let as_float := negb (is_substring "category" lowered) in
    do ts <- pd_Series ts_array as_float;
    let ts' := if rem_duplicates then drop_duplicated ts else ts in
    Ok (mkby_type records_by_type' (<[key := ts']> (ts_by_type acc)) units').

(** [build_single_workout_timeseries]. *)
Definition build_single_workout_timeseries (workout : HKWorkout)
    (records : list HKRecord) (rem_duplicates : bool) (ts_source : ts_source_arg)
  : result workout_data :=
  if negb (isinstance_list ts_source) then Raise TypeError
  else
    do rows <- records_of_workout workout records;
    let keys := type_keys rows in
    do acc <- foldM (build_key rows rem_duplicates ts_source)
                (mkby_type ∅ ∅ ∅) (elements keys);
    Ok (mkworkout_data workout (records_by_type acc) (ts_by_type acc)
          (units_by_type acc)).

(** [build_workouts_timeseries].  Every task is a pure function of its
    workout and results are read in submission order, so the pool is a
    map in which the first exception (in list order) propagates.
    [ThreadPoolExecutor] rejects a worker count below one. *)
Definition build_workouts_timeseries (workouts : list HKWorkout)
    (records : list HKRecord) (n_threads : option Z) (rem_duplicates : bool)
    (ts_source : ts_source_arg) : result (list workout_data) :=
  match n_threads with
  | Some n => if n <=? 0 then Raise ValueError
              else mapM (fun x => build_single_workout_timeseries x records
                                    rem_duplicates ts_source) workouts
  | None => mapM (fun x => build_single_workout_timeseries x records
                             rem_duplicates ts_source) workouts
  end.

End Healthkit.

(** ** Parsers for the text of an export

    [dateutil.parser.parse] and [float] accept many notations.  The two
    functions below read the notation an export uses, on which they agree
    with the library functions, and decline everything else. *)

Definition digit_of (c : ascii) : option Z :=
  let n := Z.of_N (N_of_ascii c) in
  if (48 <=? n) && (n <=? 57) then Some (n - 48) else None.

Fixpoint number_of (acc : Z) (cs : list ascii) : option Z :=
  match cs with
  | [] => Some acc
  | c :: cs' =>
      match digit_of c with
      | Some d => number_of (acc * 10 + d) cs'
      | None => None
      end
  end.

(** [YYYY-MM-DD HH:MM:SS +HHMM], and the same text without the offset,
    which is read as an offset-naive datetime. *)
Definition parse_clock (cs : list ascii) : option (Z * Z * Z * Z * Z * Z) :=
  match cs with
  | [y1; y2; y3; y4; "-"; m1; m2; "-"; d1; d2; " ";
     h1; h2; ":"; i1; i2; ":"; s1; s2]%char =>
      y ← number_of 0 [y1; y2; y3; y4];
      m ← number_of 0 [m1; m2];
      d ← number_of 0 [d1; d2];
      h ← number_of 0 [h1; h2];
      mi ← number_of 0 [i1; i2];
      se ← number_of 0 [s1; s2];
      if (1 <=? y) && (1 <=? m) && (m <=? 12) && (1 <=? d) && (d <=? days_in_month y m)
         && (h <? 24) && (mi <? 60) && (se <? 60)
      then Some (y, m, d, h, mi, se)
      else None
  | _ => None
  end.

Definition parse_offset (cs : list ascii) : option Z :=
  match cs with
  | [" "; sg; o1; o2; o3; o4]%char =>
      oh ← number_of 0 [o1; o2];
      om ← number_of 0 [o3; o4];
      sign ← (if Ascii.eqb sg "+" then Some 1
              else if Ascii.eqb sg "-" then Some (-1) else None);
      if (oh <? 24) && (om <? 60) then Some (sign * (oh * 60 + om)) else None
  | _ => None
  end.

Definition parse_export_date (s : string) : option datetime :=
  let cs := list_ascii_of_string s in
  match parse_clock (take 19 cs) with
  | Some (y, m, d, h, mi, se) =>
      match drop 19 cs with
      | [] => Some (mkdatetime y m d h mi se 0 None)
      | rest =>
          match parse_offset rest with
          | Some off => Some (mkdatetime y m d h mi se 0 (Some off))
          | None => None
          end
      end
  | None => None
  end.

Fixpoint split_at_dot (cs : list ascii) : list ascii * option (list ascii) :=
  match cs with
  | [] => ([], None)
  | c :: cs' =>
      if Ascii.eqb c "." then ([], Some cs')
      else let '(a, b) := split_at_dot cs' in (c :: a, b)
  end.

(** [[-]digits[.digits]] with at most fifteen digits: the quotient of two
    exactly representable integers, rounded once. *)
Definition parse_decimal (s : string) : option float :=
  let cs := list_ascii_of_string s in
  let '(neg, cs) := match cs with
                    | c :: cs' => if Ascii.eqb c "-" then (true, cs') else (false, cs)
                    | [] => (false, cs)
                    end in
  let '(ip, fp) := split_at_dot cs in
  let fp := default [] fp in
  if bool_decide (ip = []) || (15 <? Z.of_nat (length ip + length fp)) then None
  else
    n ← number_of 0 (ip ++ fp);
    let q := (PrimFloat.of_uint63 (Uint63.of_Z n)
              / PrimFloat.of_uint63 (Uint63.of_Z (10 ^ Z.of_nat (length fp))))%float in
    Some (if neg then (- q)%float else q).

(** ** Vocabulary of the statements *)

(** [key in r.rec_type] for a record whose type is a string. *)
Definition has_type (k : string) (r : HKRecord) : bool :=
  match rec_type r with
  | Some t => is_substring k t
  | None => false
  end.

(** [r.source_name in ts_source] for a list [ts_source]. *)
Definition from_source (src : list string) (r : HKRecord) : bool :=
  match source_name r with
  | Some x => bool_decide (x ∈ src)
  | None => false
  end.

(** The value of the window test [s_date <= r.start_date <= e_date] on
    a record on which it can be evaluated ([window_evaluates] below);
    on the others the test raises [TypeError]. *)
Definition in_window (w : HKWorkout) (r : HKRecord) : bool :=
  dt_le (wk_start_date w) (start_date r) && dt_le (start_date r) (wk_end_date w).

(** The window test can be evaluated on a record: its start date can be
    ordered with the workout's start and, when it is not before it, with
    the workout's end. *)
Definition window_evaluates (w : HKWorkout) (r : HKRecord) : bool :=
  Bool.eqb (is_aware (wk_start_date w)) (is_aware (start_date r))
  && (negb (dt_le (wk_start_date w) (start_date r))
      || Bool.eqb (is_aware (start_date r)) (is_aware (wk_end_date w))).

(** What [records_of_workout] returns when the window test can be
    evaluated on every record. *)
Definition selection (w : HKWorkout) (rs : list HKRecord) : list HKRecord :=
  sorted (fun x => isoformat (start_date x)) str_lt (List.filter (in_window w) rs).

(** The candidate records of a key: selected, of that type, from a
    listed source. *)
Definition candidates (k : string) (src : list string) (rows : list HKRecord) : list HKRecord :=
  List.filter (fun r => has_type k r && from_source src r) rows.

Definition row_of (r : HKRecord) : datetime * pyvalue := (start_date r, value r).

Definition is_category (k : string) : bool := is_substring "category" (str_lower k).

Definition is_float (v : pyvalue) : bool :=
  match v with VFloat _ => true | _ => false end.





(** The series the builder stores for a string key [k] under a list
    filter [src], when the key has candidates. *)
Definition series_of (float_of_str : string -> option float) (rem_duplicates : bool)
    (k : string) (src : list string) (rows : list HKRecord)
  : result (list (datetime * pyvalue)) :=
  do ts <- pd_Series float_of_str (map row_of (candidates k src rows)) (negb (is_category k));
  Ok (if rem_duplicates then drop_duplicated ts else ts).

(** What one iteration for [key] leaves in the three dictionaries. *)
Definition key_post (float_of_str : string -> option float) (rows : list HKRecord)
    (rem_duplicates : bool) (src : list string) (acc acc' : by_type)
    (key : option string) : Prop :=
  exists k first,
    key = Some k /\
    Forall (fun r => is_Some (rec_type r)) rows /\
    index0 (List.filter (has_type k) rows) = Ok first /\
    records_by_type acc' !! key = Some (List.filter (has_type k) rows) /\
    units_by_type acc' !! key = Some (rec_unit first) /\
    ((candidates k src rows = [] /\ ts_by_type acc' !! key = ts_by_type acc !! key) \/
     (candidates k src rows <> [] /\
      exists s, series_of float_of_str rem_duplicates k src rows = Ok s /\
                ts_by_type acc' !! key = Some s)).

(** Dictionary entries of the other keys are left alone. *)
Definition key_frame (acc acc' : by_type) (key : option string) : Prop :=
  forall key', key' <> key ->
    records_by_type acc' !! key' = records_by_type acc !! key' /\
    units_by_type acc' !! key' = units_by_type acc !! key' /\
    ts_by_type acc' !! key' = ts_by_type acc !! key'.

Definition empty_by_type : by_type := mkby_type ∅ ∅ ∅.

Definition dicts_of (b : workout_data) : by_type :=
  mkby_type (records b) (timeseries b) (units b).

(** ** Sample data: a thirty-minute run and what was logged around it *)

Definition at_time (h mi : Z) : datetime := mkdatetime 2020 1 5 h mi 0 0 (Some 120).

Definition sample_workout : HKWorkout :=
  mkHKWorkout (Some "HKWorkoutActivityTypeRunning") 30 (Some "min") 5 (Some "km")
    300 (Some "kcal") (Some "Watch") (Some "6.1") None
    (at_time 10 31) (at_time 10 0) (at_time 10 30).

Definition sample (ty src : string) (u : option string) (h mi : Z) (v : pyvalue) : HKRecord :=
  mkHKRecord (Some ty) (Some src) (Some "6.1") None u
    (at_time h mi) (at_time h mi) (at_time h mi) v.

Definition heart_rate : string := "HKQuantityTypeIdentifierHeartRate".
Definition heart_rate_variability : string := "HKQuantityTypeIdentifierHeartRateVariabilitySDNN".
Definition stand_hour : string := "HKCategoryTypeIdentifierAppleStandHour".

Definition sample_records : list HKRecord :=
  [ sample heart_rate "Watch" (Some "count/min") 10 30 (VFloat 150);
    sample heart_rate "Watch" (Some "count/min") 9 59 (VFloat 80);
    sample heart_rate "Watch" (Some "count/min") 10 15 (VFloat 140);
    sample heart_rate "Phone" (Some "count/min") 10 15 (VFloat 141);
    sample heart_rate_variability "Watch" (Some "ms") 10 20 (VFloat 42);
    sample stand_hour "Phone" None 10 5 (VStr "HKCategoryValueAppleStandHourStood");
    sample heart_rate "Watch" (Some "count/min") 10 0 (VFloat 90);
    sample heart_rate "Watch" (Some "count/min") 10 31 (VFloat 120) ].

(** The instant of a series entry. *)
Definition stamp (e : datetime * pyvalue) : Z := utc_micros (fst e).

(** A bundle with [Index.duplicated] applied to every series. *)
Definition without_duplicates (b : workout_data) : workout_data :=
  mkworkout_data (workout b) (records b) (drop_duplicated <$> timeseries b) (units b).

(** [ts[~duplicated]] when the timestamps in [seen] came before. *)
Definition keep_unseen (seen : list datetime) (ts : list (datetime * pyvalue))
  : list (datetime * pyvalue) :=
  mask_select (map negb (duplicated_from seen (map fst ts))) ts.

Definition dedup_by_type (acc : by_type) : by_type :=
  mkby_type (records_by_type acc) (drop_duplicated <$> ts_by_type acc) (units_by_type acc).

Definition rmap {A B : Type} (f : A -> B) (m : result A) : result B :=
  match m with
  | Ok a => Ok (f a)
  | Raise e => Raise e
  end.

(** ** Sample attribute maps and records with mixed UTC offsets *)

Definition record_without_source : gmap string string :=
  list_to_map
    [ ("type", heart_rate); ("sourceVersion", "6.1"); ("unit", "count/min");
      ("creationDate", "2020-01-05 10:15:02 +0200");
      ("startDate", "2020-01-05 10:15:00 +0200");
      ("endDate", "2020-01-05 10:15:00 +0200");
      ("value", "140") ].

Definition workout_without_source : gmap string string :=
  list_to_map
    [ ("workoutActivityType", "HKWorkoutActivityTypeRunning");
      ("duration", "30.5"); ("durationUnit", "min");
      ("totalDistance", "5"); ("totalDistanceUnit", "km");
      ("totalEnergyBurned", "300"); ("totalEnergyBurnedUnit", "kcal");
      ("sourceVersion", "6.1");
      ("creationDate", "2020-01-05 10:31:00 +0200");
      ("startDate", "2020-01-05 10:00:00 +0200");
      ("endDate", "2020-01-05 10:30:00 +0200") ].

(** 10:10 at UTC+2 is ten minutes before 08:20 at UTC. *)
Definition logged_abroad : HKRecord :=
  mkHKRecord (Some heart_rate) (Some "Watch") (Some "6.1") None (Some "count/min")
    (mkdatetime 2020 1 5 10 10 0 0 (Some 120)) (mkdatetime 2020 1 5 10 10 0 0 (Some 120))
    (mkdatetime 2020 1 5 10 10 0 0 (Some 120)) (VFloat 100).

Definition logged_utc : HKRecord :=
  mkHKRecord (Some heart_rate) (Some "Watch") (Some "6.1") None (Some "count/min")
    (mkdatetime 2020 1 5 8 20 0 0 (Some 0)) (mkdatetime 2020 1 5 8 20 0 0 (Some 0))
    (mkdatetime 2020 1 5 8 20 0 0 (Some 0)) (VFloat 110).

(** The same instant as [logged_abroad], written at UTC. *)
Definition logged_same_instant : HKRecord :=
  mkHKRecord (Some heart_rate) (Some "Phone") (Some "6.1") None (Some "count/min")
    (mkdatetime 2020 1 5 8 10 0 0 (Some 0)) (mkdatetime 2020 1 5 8 10 0 0 (Some 0))
    (mkdatetime 2020 1 5 8 10 0 0 (Some 0)) (VFloat 101).


(** Two stand-hour samples, the second logged without a value. *)
Definition stood_then_missing : list HKRecord :=
  [ sample stand_hour "Phone" None 10 5 (VStr "HKCategoryValueAppleStandHourStood");
    sample stand_hour "Phone" None 10 10 VNone;
    sample heart_rate "Phone" None 10 12 (VStr "72") ].

(** Stand hours of which the phone logged the label and the watch
    nothing. *)
Definition stood_on_phone : list HKRecord :=
  [ sample stand_hour "Phone" None 10 5 (VStr "HKCategoryValueAppleStandHourStood");
    sample stand_hour "Watch" None 10 10 VNone ].

(** A record whose start date was written without a UTC offset. *)
Definition logged_without_offset : HKRecord :=
  mkHKRecord (Some heart_rate) (Some "Watch") (Some "6.1") None (Some "count/min")
    (mkdatetime 2020 1 5 9 0 0 0 None) (mkdatetime 2020 1 5 9 0 0 0 None)
    (mkdatetime 2020 1 5 9 0 0 0 None) (VFloat 80).

(** ** Loading: elements of the parsed document *)

(** An [ElementTree] element: tag, attributes, child elements. *)
#[warnings="-register-all"]
Inductive Element : Type :=
  | mkElement (tag : string) (attrib : gmap string string) (children : list Element).

Definition el_tag (x : Element) : string :=
  match x with mkElement t _ _ => t end.

Definition el_attrib (x : Element) : gmap string string :=
  match x with mkElement _ a _ => a end.

Definition el_children (x : Element) : list Element :=
  match x with mkElement _ _ c => c end.

(** [xml_root.findall(selected_tag)] for a plain tag name: the direct
    children carrying that tag, in document order. *)
Definition findall (xml_root : Element) (selected_tag : string) : list Element :=
  List.filter (fun x => String.eqb (el_tag x) selected_tag) (el_children xml_root).

(** [load_xml_tag].  One task per tag is submitted to the pool; the
    results are read back in submission order, so the first exception in
    document order propagates.  The pool rejects a worker count below one
    before anything is submitted. *)
Definition load_xml_tag {T : Type} (xml_root : Element) (selected_tag : string)
    (output_class : Element -> result T) (n_threads : option Z) : result (list T) :=
  match n_threads with
  | Some n => if n <=? 0 then Raise ValueError
              else mapM output_class (findall xml_root selected_tag)
  | None => mapM output_class (findall xml_root selected_tag)
  end.

Section Loading.
Variable parse_datetime : string -> option datetime.
Variable float_of_str : string -> option float.

(** [load_records]. *)
Definition load_records (xml_root : Element) (n_threads : option Z)
  : result (list HKRecord) :=
  load_xml_tag xml_root "Record"
    (fun x => HKRecord_init parse_datetime float_of_str (el_attrib x)) n_threads.

(** [load_workouts]. *)
Definition load_workouts (xml_root : Element) (n_threads : option Z)
  : result (list HKWorkout) :=
  load_xml_tag xml_root "Workout"
    (fun x => HKWorkout_init parse_datetime float_of_str (el_attrib x)) n_threads.

End Loading.

(** ** Text of a record *)

(** [str(datetime)]: the ISO text with a blank between date and time. *)
Definition datetime_str (t : datetime) : string :=
  zero_pad 4 (year t) +:+ "-" +:+ zero_pad 2 (month t) +:+ "-" +:+ zero_pad 2 (day t)
  +:+ " " +:+ zero_pad 2 (hour t) +:+ ":" +:+ zero_pad 2 (minute t)
  +:+ ":" +:+ zero_pad 2 (second t)
  +:+ (if microsecond t =? 0 then "" else "." +:+ zero_pad 6 (microsecond t))
  +:+ offset_text (utcoffset t).

(** [str(x)] for an attribute that is a string or [None]. *)
Definition str_of_attr (x : option string) : string :=
  match x with
  | Some s => s
  | None => "None"
  end.

(** Decimal digits of a non-negative integer. *)
Fixpoint digits_from (fuel : nat) (n : Z) (acc : string) : string :=
  match fuel with
  | O => acc
  | S fuel' =>
      let acc' := String (digit_char n) acc in
      if n / 10 =? 0 then acc' else digits_from fuel' (n / 10) acc'
  end.

Definition decimal (n : Z) : string :=
  digits_from (S (Z.to_nat (Z.log2 n))) n "".

Definition round_half_even (num den : Z) : Z :=
  let q := num / den in
  let r := num mod den in
  if (den <? 2 * r) || ((2 * r =? den) && Z.odd q) then q + 1 else q.

(** [format(x, '.<prec>f')]: the exact binary value rounded half-even to
    [prec] decimals. *)
Definition format_fixed (prec : nat) (x : float) : string :=
  let p := 10 ^ Z.of_nat prec in
  let body (neg : bool) (scaled : Z) :=
    (if neg then "-" else "") +:+ decimal (scaled / p)
    +:+ (match prec with O => "" | _ => "." +:+ zero_pad prec (scaled mod p) end) in
  match Prim2SF x with
  | S754_nan => "nan"
  | S754_infinity s => if s then "-inf" else "inf"
  | S754_zero s => body s 0
  | S754_finite s m e =>
      body s (if 0 <=? e then Z.pos m * 2 ^ e * p
              else round_half_even (Z.pos m * p) (2 ^ (- e)))
  end.

(** The exception of reading a local name that was never bound. *)
Inductive local_error : Type :=
  | UnboundLocalError (name : string).

Definition newline : string := String (ascii_of_nat 10) EmptyString.

Definition rule70 : string :=
  "======================================================================".

Definition margin12 : string := "            ".

Section Text.
(** [format(x, '.3f')] as the f-string applies it. *)
Variable format_f : nat -> float -> string.

(** [HKRecord.__str__]: only the branch for a float value binds
    [ret_str]; the other branch builds its text and drops it. *)
Definition HKRecord_str (r : HKRecord) : string + local_error :=
  match value r with
  | VFloat f =>
      inl (newline
           +:+ margin12 +:+ "RECORD - " +:+ datetime_str (creation_date r)
           +:+ newline +:+ newline
           +:+ margin12 +:+ str_of_attr (rec_type r) +:+ " from "
           +:+ str_of_attr (source_name r) +:+ newline +:+ newline
           +:+ margin12 +:+ rule70 +:+ newline +:+ newline
           +:+ margin12 +:+ "From " +:+ datetime_str (start_date r) +:+ " to "
           +:+ datetime_str (end_date r) +:+ newline +:+ newline
           +:+ margin12 +:+ "Value: " +:+ format_f 3 f +:+ " "
           +:+ str_of_attr (rec_unit r) +:+ newline +:+ newline
           +:+ margin12)
  | _ => inr (UnboundLocalError "ret_str")
  end.

End Text.

Definition is_text (x : string + local_error) : bool :=
  match x with inl _ => true | inr _ => false end.

(** A categorical record: no unit, the value is a label. *)
Definition stand_hour_attributes : gmap string string :=
  list_to_map
    [ ("type", stand_hour); ("sourceName", "Phone"); ("sourceVersion", "13.3");
      ("creationDate", "2020-01-05 10:06:00 +0200");
      ("startDate", "2020-01-05 10:05:00 +0200");
      ("endDate", "2020-01-05 11:00:00 +0200");
      ("value", "HKCategoryValueAppleStandHourStood") ].

(** A worker count the pool accepts: the default, or at least one. *)
Definition pool_accepts (n_threads : option Z) : Prop :=
  match n_threads with
  | Some n => 0 < n
  | None => True
  end.

(** A small export: two records, a workout, and a record with no start
    date after them. *)
Definition sample_document (with_broken : bool) : Element :=
  mkElement "HealthData" (list_to_map [("locale", "en_NL")])
    ([ mkElement "ExportDate" (list_to_map [("value", "2020-01-06 09:00:00 +0200")]) [];
       mkElement "Record" record_without_source
         [ mkElement "MetadataEntry" (list_to_map [("key", "HKMetadataKeyHeartRateMotionContext")]) [] ];
       mkElement "Workout" workout_without_source [];
       mkElement "Record" stand_hour_attributes [] ]
     ++ (if with_broken
         then [ mkElement "Record" (delete "startDate" record_without_source) [];
                mkElement "Record" (delete "creationDate" record_without_source) [] ]
         else [])).

(** Records of one afternoon in which a variability sample precedes the
    first heart-rate sample. *)
Definition variability_first : list HKRecord :=
  [ sample heart_rate "Watch" (Some "count/min") 10 12 (VFloat 95);
    sample heart_rate_variability "Watch" (Some "ms") 10 2 (VFloat 38) ].

(** The bundle of a call that returned. *)
Definition built (w : HKWorkout) (m : result workout_data) : workout_data :=
  match m with
  | Ok b => b
  | Raise _ => mkworkout_data w ∅ ∅ ∅
  end.

(** The series a bundle stores under a string key. *)
Definition series_at (b : workout_data) (k : string) : list (datetime * pyvalue) :=
  default [] (timeseries b !! Some k).

(** A walk that ended before the first record was logged. *)
Definition early_workout : HKWorkout :=
  mkHKWorkout (Some "HKWorkoutActivityTypeWalking") 20 (Some "min") 1.5 (Some "km")
    80 (Some "kcal") (Some "Watch") (Some "6.1") None
    (at_time 9 31) (at_time 9 0) (at_time 9 30).

(** The object of a construction that succeeded. *)
Definition built_record (m : result HKRecord) : HKRecord :=
  match m with
  | Ok r => r
  | Raise _ => mkHKRecord None None None None None
                 (at_time 0 0) (at_time 0 0) (at_time 0 0) VNone
  end.

Definition built_workout (m : result HKWorkout) : HKWorkout :=
  match m with
  | Ok w => w
  | Raise _ => sample_workout
  end.

(** A document with one record and one workout. *)
Definition single_record_document : Element :=
  mkElement "HealthData" ∅
    [ mkElement "Workout" workout_without_source [];
      mkElement "Record" record_without_source [] ].

(** ** Well-formed timestamps *)

(** The ranges [datetime] enforces on its fields. *)
Definition valid_datetime (t : datetime) : Prop :=
  1 <= year t <= 9999 /\ 1 <= month t <= 12 /\
  1 <= day t <= days_in_month (year t) (month t) /\
  0 <= hour t < 24 /\ 0 <= minute t < 60 /\ 0 <= second t < 60 /\
  0 <= microsecond t < 1000000.

(** Lexicographic combination of two comparisons. *)
Definition lexc (c1 c2 : comparison) : comparison :=
  match c1 with
  | Eq => c2
  | _ => c1
  end.

Definition leap_day (y : Z) : Z := if is_leap y then 1 else 0.
(** * Properties *)

Example isoformat_ex :
  isoformat (mkdatetime 2020 1 5 10 0 0 0 (Some 120)) = "2020-01-05T10:00:00+02:00"
  /\ isoformat (mkdatetime 2020 1 5 10 0 0 500 (Some (-90)))
     = "2020-01-05T10:00:00.000500-01:30"
  /\ isoformat (mkdatetime 2020 1 5 10 0 0 0 None) = "2020-01-05T10:00:00".
Proof. repeat split; reflexivity. Qed.

Example parse_export_date_ex :
  parse_export_date "2020-01-05 10:00:00 +0200"
  = Some (mkdatetime 2020 1 5 10 0 0 0 (Some 120))
  /\ parse_export_date "2020-01-05 10:00:00" = Some (mkdatetime 2020 1 5 10 0 0 0 None)
  /\ parse_export_date "2020-02-30 10:00:00 +0200" = None
  /\ parse_decimal "12.5" = Some 12.5%float
  /\ parse_decimal "-3" = Some (-3)%float
  /\ parse_decimal "abc" = None.
Proof. repeat split; vm_compute; reflexivity. Qed.

(** ** The error monad *)

Lemma rbind_Ok {A B : Type} (m : result A) (f : A -> result B) (b : B) :
  rbind m f = Ok b -> exists a, m = Ok a /\ f a = Ok b.
Proof. destruct m as [a|e]; simpl; [eauto | discriminate]. Qed.

Ltac inv_bind H :=
  let a := fresh "a" in
  let Ha := fresh "Ha" in
  apply rbind_Ok in H as (a & Ha & H).

Lemma is_ok_true {A : Type} (m : result A) : is_ok m = true <-> exists a, m = Ok a.
Proof.
  destruct m; simpl; split; eauto; try discriminate.
  intros [a Ha]; discriminate.
Qed.

Lemma filterM_Ok {A : Type} (p : A -> result bool) (q : A -> bool) (l ys : list A) :
  (forall x, In x l -> forall b, p x = Ok b -> b = q x) ->
  filterM p l = Ok ys ->
  ys = List.filter q l /\ Forall (fun x => p x = Ok (q x)) l.
Proof.
  revert ys; induction l as [|x l IH]; intros ys Hq H; simpl in *.
  - injection H as <-. split; [reflexivity | constructor].
  - inv_bind H. inv_bind H. injection H as <-.
    pose proof (Hq x (or_introl eq_refl) _ Ha) as ->.
    destruct (IH a0) as [-> HF]; [intros; eapply Hq; eauto | assumption |].
    split; [reflexivity | constructor; assumption].
Qed.

Lemma filterM_pure {A : Type} (p : A -> result bool) (q : A -> bool) (l : list A) :
  Forall (fun x => p x = Ok (q x)) l -> filterM p l = Ok (List.filter q l).
Proof.
  induction 1 as [|x l Hx _ IH]; simpl; [reflexivity |].
  rewrite Hx, IH; reflexivity.
Qed.

Lemma mapM_Ok_Forall2 {A B : Type} (f : A -> result B) (l : list A) (ys : list B) :
  mapM f l = Ok ys -> Forall2 (fun x y => f x = Ok y) l ys.
Proof.
  revert ys; induction l as [|x l IH]; intros ys H; simpl in *.
  - injection H as <-; constructor.
  - inv_bind H. inv_bind H. injection H as <-. constructor; auto.
Qed.

Lemma mapM_total {A B : Type} (f : A -> result B) (l : list A) :
  Forall (fun x => is_ok (f x) = true) l -> exists ys, mapM f l = Ok ys.
Proof.
  induction 1 as [|x l Hx _ [ys IH]]; simpl; [eauto |].
  apply is_ok_true in Hx as [y Hy]. rewrite Hy, IH; simpl; eauto.
Qed.

(** ** [sorted] *)

Section SortedFacts.
Context {A K : Type} (key : A -> K) (lt : K -> K -> bool).

Lemma insert_sorted_Permutation (x : A) (l : list A) :
  Permutation (insert_sorted key lt x l) (x :: l).
Proof.
  induction l as [|y l IH]; simpl; [reflexivity |].
  destruct (lt (key y) (key x)); [| reflexivity].
  rewrite IH. apply perm_swap.
Qed.

Lemma sorted_Permutation (l : list A) : Permutation (sorted key lt l) l.
Proof.
  induction l as [|x l IH]; simpl; [reflexivity |].
  rewrite insert_sorted_Permutation, IH; reflexivity.
Qed.

Lemma sorted_In (l : list A) (x : A) : In x (sorted key lt l) <-> In x l.
Proof.
  split; apply Permutation_in;
    [apply sorted_Permutation | symmetry; apply sorted_Permutation].
Qed.

Lemma sorted_length (l : list A) : length (sorted key lt l) = length l.
Proof. apply Permutation_length, sorted_Permutation. Qed.

(** Entries that the sort does not move past each other keep their
    order: filtering on a class of keys closed under "not less than in
    both directions" commutes with sorting. *)
Lemma insert_sorted_filter (p : A -> bool) (x : A) (l : list A) :
  (forall y, In y l -> p y = true -> p x = true -> lt (key y) (key x) = false) ->
  List.filter p (insert_sorted key lt x l) = List.filter p (x :: l).
Proof.
  induction l as [|y l IH]; intros Hp; simpl; [reflexivity |].
  destruct (lt (key y) (key x)) eqn:Hlt; simpl; [| reflexivity].
  rewrite IH by (intros; apply Hp; simpl; auto). simpl.
  destruct (p x) eqn:Hx, (p y) eqn:Hy; try reflexivity.
  rewrite Hp in Hlt; simpl; auto; discriminate.
Qed.

(** With an asymmetric [lt] whose complement is transitive the result is
    ascending: no element has a key below the key of an earlier one. *)
Lemma insert_sorted_ascending (x : A) (l : list A) :
  (forall a b, lt a b = true -> lt b a = false) ->
  (forall a b c, lt b a = false -> lt c b = false -> lt c a = false) ->
  StronglySorted (fun u v => lt (key v) (key u) = false) l ->
  StronglySorted (fun u v => lt (key v) (key u) = false) (insert_sorted key lt x l).
Proof.
  intros Hasym Htrans. induction 1 as [|y l Hl IH Hy]; simpl.
  - repeat constructor.
  - destruct (lt (key y) (key x)) eqn:Hlt.
    + constructor; [exact IH |].
      rewrite Forall_forall. intros z Hz. apply list_elem_of_In in Hz.
      apply (Permutation_in _ (insert_sorted_Permutation x l)) in Hz.
      destruct Hz as [<-|Hz]; [apply Hasym; exact Hlt |].
      rewrite Forall_forall in Hy. apply Hy, list_elem_of_In, Hz.
    + constructor; [constructor; assumption |].
      constructor; [exact Hlt |].
      eapply Forall_impl; [exact Hy |]. intros z Hz; simpl in *.
      eapply Htrans; eassumption.
Qed.

Lemma sorted_ascending (l : list A) :
  (forall a b, lt a b = true -> lt b a = false) ->
  (forall a b c, lt b a = false -> lt c b = false -> lt c a = false) ->
  StronglySorted (fun u v => lt (key v) (key u) = false) (sorted key lt l).
Proof.
  intros Hasym Htrans. induction l as [|x l IH]; simpl; [constructor |].
  apply insert_sorted_ascending; assumption.
Qed.

Lemma sorted_stable (p : A -> bool) (l : list A) :
  (forall x y, p x = true -> p y = true -> lt (key x) (key y) = false) ->
  List.filter p (sorted key lt l) = List.filter p l.
Proof.
  intros Hp; induction l as [|x l IH]; simpl; [reflexivity |].
  rewrite insert_sorted_filter by (intros; apply Hp; assumption).
  simpl. rewrite IH. reflexivity.
Qed.
End SortedFacts.

(** ** The loop of the builder *)

Section BuildFacts.
Variable float_of_str : string -> option float.

Lemma filterM_has_type (key : option string) (rows grp : list HKRecord) :
  filterM (fun r => py_in_str key (rec_type r)) rows = Ok grp ->
  rows <> [] ->
  exists k, key = Some k /\
            Forall (fun r => is_Some (rec_type r)) rows /\
            grp = List.filter (has_type k) rows.
Proof.
  intros H Hne. destruct key as [k|].
  - exists k. split; [reflexivity |].
    apply (filterM_Ok _ (has_type k)) in H as [-> HF].
    + split; [| reflexivity].
      eapply Forall_impl; [exact HF |]. intros r Hr; simpl in Hr.
      destruct (rec_type r); [eauto | discriminate].
    + intros r _ b Hb. unfold has_type. simpl in Hb.
      destruct (rec_type r); [congruence | discriminate].
  - destruct rows as [|r rows]; [congruence | discriminate].
Qed.

Lemma ts_array_of_list (k : string) (src : list string) (rows : list HKRecord) :
  Forall (fun r => is_Some (rec_type r)) rows ->
  ts_array_of rows (TsList src) (Some k) = Ok (map row_of (candidates k src rows)).
Proof.
  intros HF. unfold ts_array_of, candidates; simpl.
  erewrite filterM_pure; [reflexivity |].
  eapply Forall_impl; [exact HF |]. intros r [t Ht]; simpl.
  unfold has_type, from_source. rewrite Ht; simpl.
  destruct (is_substring k t); reflexivity.
Qed.

Lemma index0_Ok {A : Type} (l : list A) (x : A) : index0 l = Ok x -> l <> [].
Proof. destruct l; [discriminate | congruence]. Qed.

Lemma build_key_Ok rows rd src acc key acc' :
  build_key float_of_str rows rd (TsList src) acc key = Ok acc' ->
  key_post float_of_str rows rd src acc acc' key /\ key_frame acc acc' key.
Proof.
  unfold build_key. intros H.
  inv_bind H. rename a into grp. inv_bind H. rename a into first.
  inv_bind H. rename a into ts_array.
  assert (Hrows : rows <> []).
  { intros ->. simpl in Ha. injection Ha as <-. discriminate. }
  destruct (filterM_has_type _ _ _ Ha Hrows) as (k & -> & HF & ->).
  rewrite (ts_array_of_list k src rows HF) in Ha1. injection Ha1 as <-.
  case_bool_decide as Hempty.
  - injection H as <-. split.
    + exists k, first. simpl. rewrite !lookup_insert_eq.
      repeat split; try assumption; try reflexivity.
      left. split; [| reflexivity].
      destruct (candidates k src rows); [reflexivity | discriminate].
    + intros key' Hne; simpl. rewrite !lookup_insert_ne by congruence. auto.
  - inv_bind H. simpl in Ha1. injection Ha1 as <-.
    inv_bind H. injection H as <-. split.
    + exists k, first. simpl. rewrite !lookup_insert_eq.
      repeat split; try assumption; try reflexivity.
      right. split; [intros Hc; apply Hempty; rewrite Hc; reflexivity |].
      eexists. split; [| reflexivity].
      unfold series_of, is_category. rewrite Ha1. reflexivity.
    + intros key' Hne; simpl. rewrite !lookup_insert_ne by congruence. auto.
Qed.

Lemma key_post_frame rows rd src acc acc1 acc' key :
  key_post float_of_str rows rd src acc1 acc' key ->
  ts_by_type acc1 !! key = ts_by_type acc !! key ->
  key_post float_of_str rows rd src acc acc' key.
Proof.
  intros (k & first & ? & ? & ? & ? & ? & Hts) Heq.
  exists k, first. repeat split; try assumption.
  destruct Hts as [[? ?]|?]; [left | right; assumption].
  split; congruence.
Qed.

Lemma foldM_build_key rows rd src (ks : list (option string)) acc acc' :
  foldM (build_key float_of_str rows rd (TsList src)) acc ks = Ok acc' ->
  (forall key, In key ks -> key_post float_of_str rows rd src acc acc' key) /\
  (forall key, ~ In key ks ->
     records_by_type acc' !! key = records_by_type acc !! key /\
     units_by_type acc' !! key = units_by_type acc !! key /\
     ts_by_type acc' !! key = ts_by_type acc !! key).
Proof.
  revert acc; induction ks as [|x ks IH]; intros acc H; simpl in H.
  - injection H as <-. split; [intros ? [] | auto].
  - inv_bind H. rename a into acc1.
    apply build_key_Ok in Ha as [Hpost Hframe].
    destruct (IH _ H) as [IHin IHout]. split.
    + intros key Hin.
      destruct (decide (key ∈ ks)) as [Hk|Hk]; rewrite list_elem_of_In in Hk.
      * specialize (IHin _ Hk).
        destruct (decide (key = x)) as [->|Hne].
        -- destruct Hpost as (k & first & Hkey & _ & _ & _ & _ & Hts).
           destruct IHin as (k' & first' & Hkey' & ? & ? & ? & ? & Hts').
           assert (k' = k) as -> by congruence.
           exists k, first'. repeat split; try assumption.
           destruct Hts' as [[Hc Hl]|Hs]; [| right; assumption].
           destruct Hts as [[_ Hl0]|[Hc' _]]; [| contradiction].
           left. split; congruence.
        -- eapply key_post_frame; [exact IHin |].
           apply (Hframe key Hne).
      * destruct Hin as [<-|Hin]; [| contradiction].
        destruct (IHout _ Hk) as (HR & HU & HT).
        destruct Hpost as (k & first & ? & ? & ? & ? & ? & Hts).
        exists k, first. repeat split; try assumption; try congruence.
        destruct Hts as [[? ?]|[? (s & ? & ?)]]; [left | right].
        -- split; congruence.
        -- split; [assumption |]. exists s. split; congruence.
    + intros key Hnin.
      assert (key <> x) as Hne by (intros ->; apply Hnin; left; reflexivity).
      assert (~ In key ks) as Hk by (intros ?; apply Hnin; right; assumption).
      destruct (IHout _ Hk) as (HR & HU & HT).
      destruct (Hframe key Hne) as (HR' & HU' & HT').
      repeat split; congruence.
Qed.
End BuildFacts.

Lemma elem_of_type_keys (rows : list HKRecord) (key : option string) :
  key ∈ type_keys rows <-> exists r, In r rows /\ rec_type r = key.
Proof.
  unfold type_keys. rewrite elem_of_list_to_set, list_elem_of_In, in_map_iff.
  split; intros (r & ? & ?); exists r; auto.
Qed.

(** ** The window test *)

Lemma window_test_spec (w : HKWorkout) (r : HKRecord) :
  (do after_start <- py_le (wk_start_date w) (start_date r);
   if after_start then py_le (start_date r) (wk_end_date w) else Ok false)
  = if window_evaluates w r then Ok (in_window w r) else Raise TypeError.
Proof.
  unfold py_le, window_evaluates, in_window.
  destruct (Bool.eqb (is_aware (wk_start_date w)) (is_aware (start_date r)));
    simpl; [| reflexivity].
  destruct (dt_le (wk_start_date w) (start_date r)); simpl; [| reflexivity].
  destruct (Bool.eqb (is_aware (start_date r)) (is_aware (wk_end_date w))); reflexivity.
Qed.

Lemma window_filter_spec (w : HKWorkout) (rs : list HKRecord) :
  filterM (fun r =>
             do after_start <- py_le (wk_start_date w) (start_date r);
             if after_start then py_le (start_date r) (wk_end_date w) else Ok false) rs
  = if forallb (window_evaluates w) rs
    then Ok (List.filter (in_window w) rs) else Raise TypeError.
Proof.
  induction rs as [|r rs IH]; simpl; [reflexivity |].
  rewrite window_test_spec, IH.
  destruct (window_evaluates w r); simpl; [| reflexivity].
  destruct (forallb (window_evaluates w) rs); reflexivity.
Qed.

(** [records_of_workout] returns the selection when the window test can
    be evaluated on every record, and raises [TypeError] otherwise. *)
Lemma records_of_workout_spec (w : HKWorkout) (rs : list HKRecord) :
  records_of_workout w rs
  = if forallb (window_evaluates w) rs then Ok (selection w rs) else Raise TypeError.
Proof.
  unfold records_of_workout, selection. cbv zeta. rewrite window_filter_spec.
  destruct (forallb (window_evaluates w) rs); reflexivity.
Qed.

Lemma records_of_workout_Ok (w : HKWorkout) (rs rows : list HKRecord) :
  records_of_workout w rs = Ok rows <->
  forallb (window_evaluates w) rs = true /\ rows = selection w rs.
Proof.
  rewrite records_of_workout_spec.
  destruct (forallb (window_evaluates w) rs); split.
  - intros [= <-]. auto.
  - intros [_ ->]. reflexivity.
  - discriminate.
  - intros [? _]. discriminate.
Qed.

Section BuilderFacts.
Variable float_of_str : string -> option float.

(** The builder after its argument check and the window test. *)
Lemma build_unfold w rs rd src :
  build_single_workout_timeseries float_of_str w rs rd (TsList src)
  = if forallb (window_evaluates w) rs
    then do acc <- foldM (build_key float_of_str (selection w rs) rd (TsList src))
                     (mkby_type ∅ ∅ ∅) (elements (type_keys (selection w rs)));
         Ok (mkworkout_data w (records_by_type acc) (ts_by_type acc) (units_by_type acc))
    else Raise TypeError.
Proof.
  unfold build_single_workout_timeseries. cbn [isinstance_list negb].
  rewrite records_of_workout_spec.
  destruct (forallb (window_evaluates w) rs); reflexivity.
Qed.

Lemma build_Ok_window w rs rd a b :
  build_single_workout_timeseries float_of_str w rs rd a = Ok b ->
  forallb (window_evaluates w) rs = true.
Proof.
  intros H. destruct a as [|src| | |]; try discriminate.
  rewrite build_unfold in H.
  destruct (forallb (window_evaluates w) rs); [reflexivity | discriminate].
Qed.

Lemma build_not_list w rs rd a :
  isinstance_list a = false ->
  build_single_workout_timeseries float_of_str w rs rd a = Raise TypeError.
Proof.
  intros H. unfold build_single_workout_timeseries. rewrite H. reflexivity.
Qed.

Lemma build_Ok w rs rd a b :
  build_single_workout_timeseries float_of_str w rs rd a = Ok b ->
  exists src,
    a = TsList src /\ workout b = w /\
    (forall key, key ∈ type_keys (selection w rs) ->
       key_post float_of_str (selection w rs) rd src
         empty_by_type (dicts_of b) key) /\
    (forall key, key ∉ type_keys (selection w rs) ->
       records b !! key = None /\ units b !! key = None /\
       timeseries b !! key = None).
Proof.
  intros H.
  destruct a as [|src| | |]; try discriminate.
  exists src. split; [reflexivity |].
  rewrite build_unfold in H.
  destruct (forallb (window_evaluates w) rs); [| discriminate].
  inv_bind H. injection H as <-. simpl.
  apply foldM_build_key in Ha as [Hin Hout].
  split; [reflexivity |]. split.
  - intros key Hk. apply elem_of_elements, list_elem_of_In in Hk.
    destruct a; apply Hin; assumption.
  - intros key Hk.
    assert (~ In key (elements (type_keys (selection w rs)))) as Hk'.
    { rewrite <- list_elem_of_In, elem_of_elements. assumption. }
    destruct (Hout _ Hk') as (-> & -> & ->). simpl.
    rewrite !lookup_empty. auto.
Qed.

(** The selected rows are exactly the records of the window. *)
Lemma selection_In w rs r :
  In r (selection w rs) <-> In r rs /\ in_window w r = true.
Proof.
  unfold selection. rewrite sorted_In, filter_In. reflexivity.
Qed.

Lemma is_substring_refl (k : string) : is_substring k k = true.
Proof.
  assert (Hp : String.prefix k k = true).
  { induction k as [|c k IH]; simpl; [reflexivity |].
    destruct (ascii_dec c c); [assumption | congruence]. }
  destruct k; simpl in *; [reflexivity |]. rewrite Hp. reflexivity.
Qed.

Lemma has_type_own (r : HKRecord) (k : string) :
  rec_type r = Some k -> has_type k r = true.
Proof. unfold has_type. intros ->. apply is_substring_refl. Qed.

(** Every lookup of the returned dictionaries, spelled out. *)
Lemma build_records_lookup w rs rd a b key g :
  build_single_workout_timeseries float_of_str w rs rd a = Ok b ->
  records b !! key = Some g ->
  exists k, key = Some k /\ key ∈ type_keys (selection w rs) /\
            g = List.filter (has_type k) (selection w rs).
Proof.
  intros H Hl. destruct (build_Ok _ _ _ _ _ H) as (src & -> & _ & Hin & Hout).
  destruct (decide (key ∈ type_keys (selection w rs))) as [Hk|Hk].
  - destruct (Hin _ Hk) as (k & first & -> & _ & _ & HR & _). simpl in HR.
    exists k. repeat split; [assumption | congruence].
  - destruct (Hout _ Hk) as (HR & _). congruence.
Qed.
End BuilderFacts.

(** ** The argument check *)

(** C1 (the code departs from the claim).  Called without a source
    filter, that is with the default [ts_source=None], the builder raises
    [TypeError] for every workout and record list: the "no filter" value
    is rejected by the list check before anything is selected. *)
Theorem C1_default_ts_source_raises (float_of_str : string -> option float)
    (w : HKWorkout) (rs : list HKRecord) (rd : bool) :
  build_single_workout_timeseries float_of_str w rs rd TsNone = Raise TypeError.
Proof. reflexivity. Qed.

(** ** Selection by window *)

(** C2.  A record of the input list appears in some entry of the
    "records" dictionary of the returned bundle exactly when its start
    date lies in the closed interval from the workout's start to its end. *)
Theorem C2_records_grouping_window (float_of_str : string -> option float)
    (w : HKWorkout) (rs : list HKRecord) (rd : bool) (a : ts_source_arg)
    (b : workout_data) :
  build_single_workout_timeseries float_of_str w rs rd a = Ok b ->
  forall r, In r rs ->
    ((exists key g, records b !! key = Some g /\ In r g) <->
     dt_le (wk_start_date w) (start_date r) && dt_le (start_date r) (wk_end_date w) = true).
Proof.
  intros H r Hr. split.
  - intros (key & g & Hl & Hin).
    destruct (build_records_lookup _ _ _ _ _ _ _ _ H Hl) as (k & -> & _ & ->).
    apply filter_In in Hin as [Hin _].
    apply selection_In in Hin as [_ Hw]. exact Hw.
  - intros Hw.
    assert (Hrow : In r (selection w rs)).
    { apply selection_In. split; assumption. }
    destruct (build_Ok _ _ _ _ _ _ H) as (src & -> & _ & Hin & _).
    destruct (Hin (rec_type r)) as (k & first & Hk & _ & _ & HR & _).
    { apply elem_of_type_keys. eauto. }
    exists (rec_type r), (List.filter (has_type k) (selection w rs)).
    split; [exact HR |]. apply filter_In. split; [assumption |].
    apply has_type_own; assumption.
Qed.

Lemma C2_records_grouping_window_witness :
  exists b,
    build_single_workout_timeseries parse_decimal sample_workout sample_records
      true (TsList ["Watch"]) = Ok b /\
    forall r, In r sample_records ->
      ((exists key g, records b !! key = Some g /\ In r g) <->
       dt_le (wk_start_date sample_workout) (start_date r)
       && dt_le (start_date r) (wk_end_date sample_workout) = true).
Proof.
  eexists. split; [vm_compute; reflexivity |].
  apply (C2_records_grouping_window parse_decimal sample_workout sample_records
           true (TsList ["Watch"])).
  vm_compute; reflexivity.
Defined.

(** ** Grouping by type *)

(** C4.  The entry of the "records" dictionary under a key holds exactly
    the selected, sorted records whose type contains the key as a
    substring, in that order; so the records of a type whose name extends
    the key's are part of the key's group. *)
Theorem C4_group_by_substring (float_of_str : string -> option float)
    (w : HKWorkout) (rs : list HKRecord) (rd : bool) (a : ts_source_arg)
    (b : workout_data) (key : option string) (g : list HKRecord) :
  build_single_workout_timeseries float_of_str w rs rd a = Ok b ->
  records b !! key = Some g ->
  exists k,
    key = Some k /\
    g = List.filter
          (fun r => match rec_type r with
                    | Some t => is_substring k t
                    | None => false
                    end)
          (selection w rs) /\
    (forall r t, In r (selection w rs) -> rec_type r = Some t ->
       is_substring k t = true -> In r g).
Proof.
  intros H Hl.
  destruct (build_records_lookup _ _ _ _ _ _ _ _ H Hl) as (k & -> & _ & ->).
  exists k. split; [reflexivity |]. split; [reflexivity |].
  intros r t Hr Ht Hsub. apply filter_In. split; [assumption |].
  unfold has_type. rewrite Ht. assumption.
Qed.

Lemma C4_group_by_substring_witness :
  exists b g,
    build_single_workout_timeseries parse_decimal sample_workout sample_records
      true (TsList ["Watch"]) = Ok b /\
    records b !! Some heart_rate = Some g /\
    In (sample heart_rate_variability "Watch" (Some "ms") 10 20 (VFloat 42)) g /\
    exists k,
      Some heart_rate = Some k /\
      g = List.filter
            (fun r => match rec_type r with
                      | Some t => is_substring k t
                      | None => false
                      end)
            (selection sample_workout sample_records) /\
      (forall r t, In r (selection sample_workout sample_records) ->
         rec_type r = Some t -> is_substring k t = true -> In r g).
Proof.
  eexists. eexists.
  split; [vm_compute; reflexivity |].
  split; [vm_compute; reflexivity |].
  split; [vm_compute; tauto |].
  eapply (C4_group_by_substring parse_decimal sample_workout sample_records
            true (TsList ["Watch"]));
    vm_compute; reflexivity.
Defined.

(** ** The first record of a group *)

Lemma filterM_Raise {A : Type} (p : A -> result bool) (l : list A) (e : exn) :
  filterM p l = Raise e -> exists x, In x l /\ p x = Raise e.
Proof.
  induction l as [|x l IH]; simpl; [discriminate |].
  destruct (p x) as [bx|e'] eqn:Hx; simpl.
  - destruct (filterM p l) as [ys|e'']; simpl; [discriminate |].
    intros [= <-]. destruct IH as (y & ? & ?); eauto.
  - intros [= <-]. eauto.
Qed.

Lemma mapM_Raise {A B : Type} (f : A -> result B) (l : list A) (e : exn) :
  mapM f l = Raise e -> exists x, In x l /\ f x = Raise e.
Proof.
  induction l as [|x l IH]; simpl; [discriminate |].
  destruct (f x) as [y|e'] eqn:Hx; simpl.
  - destruct (mapM f l) as [ys|e'']; simpl; [discriminate |].
    intros [= <-]. destruct IH as (z & ? & ?); eauto.
  - intros [= <-]. eauto.
Qed.

Section FirstOfGroup.
Variable float_of_str : string -> option float.

Lemma group_nonempty (rows : list HKRecord) (key : option string) (grp : list HKRecord) :
  key ∈ type_keys rows ->
  filterM (fun r => py_in_str key (rec_type r)) rows = Ok grp ->
  exists first, index0 grp = Ok first.
Proof.
  intros Hk H. apply elem_of_type_keys in Hk as (r & Hr & Ht).
  destruct (filterM_has_type _ _ _ H) as (k & -> & _ & ->).
  { intros ->; contradiction. }
  assert (Hin : In r (List.filter (has_type k) rows)).
  { apply filter_In. split; [assumption | apply has_type_own; assumption]. }
  destruct (List.filter (has_type k) rows); [contradiction | simpl; eauto].
Qed.

Lemma py_in_str_Raise key t e : py_in_str key t = Raise e -> e = TypeError.
Proof. destruct key, t; simpl; congruence. Qed.

Lemma py_in_source_Raise s a e : py_in_source s a = Raise e -> e = TypeError.
Proof. destruct a, s; simpl; congruence. Qed.

Lemma build_key_Raise rows rd a acc key e :
  key ∈ type_keys rows ->
  build_key float_of_str rows rd a acc key = Raise e -> e <> IndexError.
Proof.
  intros Hk. unfold build_key.
  destruct (filterM _ rows) as [grp|e1] eqn:Hg; simpl.
  - destruct (group_nonempty _ _ _ Hk Hg) as [first ->]; simpl.
    destruct (ts_array_of rows a key) as [ts_array|e2] eqn:Hts; simpl.
    + case_bool_decide; [discriminate |].
      destruct key as [k|]; simpl; [| congruence].
      destruct (pd_Series _ _ _) as [ts|e3] eqn:Hs; simpl; [discriminate |].
      intros [= <-]. unfold pd_Series in Hs.
      destruct (negb _); [| discriminate].
      apply mapM_Raise in Hs as ([t v] & _ & Hv). simpl in Hv.
      destruct v as [f|s|]; simpl in Hv; try discriminate.
      destruct (float_of_str s); simpl in Hv; congruence.
    + intros [= <-]. unfold ts_array_of in Hts.
      destruct (is_not_None a).
      * destruct (filterM _ rows) as [sel|e3] eqn:Hsel in Hts; simpl in Hts;
          [discriminate |].
        injection Hts as <-.
        apply filterM_Raise in Hsel as (r & _ & Hr).
        destruct (py_in_str key (rec_type r)) as [[]|e4] eqn:Hp; simpl in Hr.
        -- apply py_in_source_Raise in Hr as ->. discriminate.
        -- discriminate.
        -- injection Hr as <-. apply py_in_str_Raise in Hp as ->. discriminate.
      * rewrite Hg in Hts. discriminate.
  - intros [= <-]. apply filterM_Raise in Hg as (r & _ & Hr).
    apply py_in_str_Raise in Hr as ->. discriminate.
Qed.

Lemma foldM_build_key_Raise rows rd a ks acc e :
  Forall (fun key => key ∈ type_keys rows) ks ->
  foldM (build_key float_of_str rows rd a) acc ks = Raise e -> e <> IndexError.
Proof.
  intros HF; revert acc; induction HF as [|key ks Hk _ IH]; intros acc; simpl;
    [discriminate |].
  destruct (build_key _ rows rd a acc key) as [acc1|e1] eqn:Hb; simpl.
  - apply IH.
  - intros [= <-]. eapply build_key_Raise; eauto.
Qed.
End FirstOfGroup.

(** C10.  Every key of the computed type set is the type of a selected
    record, a string occurs in itself, and therefore the group computed
    for the key has a first element: the builder never fails with an
    out-of-range index when it reads the unit. *)
Theorem C10_first_of_group_defined (float_of_str : string -> option float)
    (w : HKWorkout) (rs : list HKRecord) (rd : bool) (src : list string) :
  (forall key, key ∈ type_keys (selection w rs) ->
     (exists r, In r (selection w rs) /\ rec_type r = key) /\
     (forall grp,
        filterM (fun r => py_in_str key (rec_type r)) (selection w rs) = Ok grp ->
        exists first, index0 grp = Ok first)) /\
  (forall k : string, is_substring k k = true) /\
  build_single_workout_timeseries float_of_str w rs rd (TsList src) <> Raise IndexError.
Proof.
  split; [| split].
  - intros key Hk. split.
    + apply elem_of_type_keys; assumption.
    + intros grp Hg. eapply group_nonempty; eauto.
  - apply is_substring_refl.
  - rewrite build_unfold.
    destruct (forallb (window_evaluates w) rs); [| discriminate].
    destruct (foldM _ _ _) as [acc|e] eqn:Hf; simpl; [discriminate |].
    intros [= ->]. eapply foldM_build_key_Raise; [| exact Hf | reflexivity].
    apply Forall_forall. intros key Hk. apply elem_of_elements. assumption.
Qed.

Lemma C10_first_of_group_defined_witness :
  exists first,
    index0 (List.filter (has_type heart_rate)
              (selection sample_workout sample_records)) = Ok first.
Proof.
  destruct (C10_first_of_group_defined parse_decimal sample_workout sample_records
              true ["Watch"]) as (Hkeys & _ & _).
  destruct (Hkeys (Some heart_rate)) as (_ & Hgrp).
  - vm_compute. reflexivity.
  - apply Hgrp. vm_compute. reflexivity.
Defined.

(** ** Key sets of the three dictionaries *)

Section KeySets.
Variable float_of_str : string -> option float.

Lemma build_dom_records w rs rd a b key :
  build_single_workout_timeseries float_of_str w rs rd a = Ok b ->
  (key ∈ dom (records b) <-> key ∈ type_keys (selection w rs)).
Proof.
  intros H. destruct (build_Ok _ _ _ _ _ _ H) as (src & -> & _ & Hin & Hout).
  rewrite elem_of_dom. split.
  - intros [g Hg]. destruct (decide (key ∈ type_keys (selection w rs)));
      [assumption |].
    destruct (Hout key) as (HR & _); [assumption | congruence].
  - intros Hk. destruct (Hin _ Hk) as (k & first & _ & _ & _ & HR & _).
    simpl in HR. eauto.
Qed.

Lemma build_dom_units w rs rd a b key :
  build_single_workout_timeseries float_of_str w rs rd a = Ok b ->
  (key ∈ dom (units b) <-> key ∈ type_keys (selection w rs)).
Proof.
  intros H. destruct (build_Ok _ _ _ _ _ _ H) as (src & -> & _ & Hin & Hout).
  rewrite elem_of_dom. split.
  - intros [g Hg]. destruct (decide (key ∈ type_keys (selection w rs)));
      [assumption |].
    destruct (Hout key) as (_ & HU & _); [assumption | congruence].
  - intros Hk. destruct (Hin _ Hk) as (k & first & _ & _ & _ & _ & HU & _).
    simpl in HU. eauto.
Qed.

(** The series of a key, when there is one. *)
Lemma build_timeseries_lookup w rs rd src b key :
  build_single_workout_timeseries float_of_str w rs rd (TsList src) = Ok b ->
  key ∈ type_keys (selection w rs) ->
  exists k, key = Some k /\
    ((candidates k src (selection w rs) = [] /\ timeseries b !! key = None) \/
     (candidates k src (selection w rs) <> [] /\
      exists s, series_of float_of_str rd k src (selection w rs) = Ok s /\
                timeseries b !! key = Some s)).
Proof.
  intros H Hk. destruct (build_Ok _ _ _ _ _ _ H) as (src' & [= <-] & _ & Hin & _).
  destruct (Hin _ Hk) as (k & first & -> & _ & _ & _ & _ & Hts).
  exists k. split; [reflexivity |]. simpl in Hts.
  rewrite lookup_empty in Hts. exact Hts.
Qed.

Lemma build_timeseries_Some w rs rd a b key s :
  build_single_workout_timeseries float_of_str w rs rd a = Ok b ->
  timeseries b !! key = Some s ->
  exists k src, key = Some k /\ a = TsList src /\
    key ∈ type_keys (selection w rs) /\
    candidates k src (selection w rs) <> [] /\
    series_of float_of_str rd k src (selection w rs) = Ok s.
Proof.
  intros H Hs. destruct (build_Ok _ _ _ _ _ _ H) as (src & -> & _ & _ & Hout).
  destruct (decide (key ∈ type_keys (selection w rs))) as [Hk|Hk].
  - destruct (build_timeseries_lookup _ _ _ _ _ _ H Hk)
      as (k & -> & [[_ Hn]|[Hc (s' & Hs' & Hl)]]); [congruence |].
    exists k, src. repeat split; try assumption. congruence.
  - destruct (Hout _ Hk) as (_ & _ & HT). congruence.
Qed.

Lemma candidates_nil k src rows :
  candidates k src rows = [] <->
  forall r, In r rows -> has_type k r = true -> from_source src r = false.
Proof.
  unfold candidates. split.
  - intros Hnil r Hr Ht. destruct (from_source src r) eqn:Hs; [| reflexivity].
    assert (In r (List.filter (fun r => has_type k r && from_source src r) rows)) as Hin.
    { apply filter_In. rewrite Ht, Hs. auto. }
    rewrite Hnil in Hin. contradiction.
  - intros Hall. induction rows as [|r rows IH]; simpl; [reflexivity |].
    destruct (has_type k r) eqn:Ht; simpl.
    + rewrite (Hall r (or_introl eq_refl) Ht).
      apply IH. intros; apply Hall; simpl; auto.
    + apply IH. intros; apply Hall; simpl; auto.
Qed.
End KeySets.

(** C6.  In a returned bundle the "records" and "units" dictionaries have
    the same keys and every key of "timeseries" is one of them; a key of
    "records" is missing from "timeseries" exactly when no selected record
    of that type comes from a listed source; and "records" and "units" do
    not depend on the source filter. *)
Theorem C6_key_sets (float_of_str : string -> option float)
    (w : HKWorkout) (rs : list HKRecord) (rd : bool) (a : ts_source_arg)
    (b : workout_data) :
  build_single_workout_timeseries float_of_str w rs rd a = Ok b ->
  dom (records b) = dom (units b) /\
  dom (timeseries b) ⊆ dom (records b) /\
  (forall key, key ∈ dom (records b) ->
     (key ∉ dom (timeseries b) <->
      exists k src, key = Some k /\ a = TsList src /\
        forall r, In r (selection w rs) ->
          has_type k r = true -> from_source src r = false)) /\
  (forall rd' a' b',
     build_single_workout_timeseries float_of_str w rs rd' a' = Ok b' ->
     records b' = records b /\ units b' = units b).
Proof.
  intros H. split; [| split; [| split]].
  - apply set_eq. intros key.
    rewrite (build_dom_records _ _ _ _ _ _ key H), (build_dom_units _ _ _ _ _ _ key H).
    reflexivity.
  - intros key Hk. apply elem_of_dom in Hk as [s Hs].
    destruct (build_timeseries_Some _ _ _ _ _ _ _ _ H Hs) as (k & src & -> & -> & Hk & _).
    apply (build_dom_records _ _ _ _ _ _ _ H). assumption.
  - intros key Hk. apply (build_dom_records _ _ _ _ _ _ _ H) in Hk.
    destruct (build_Ok _ _ _ _ _ _ H) as (src & -> & _).
    destruct (build_timeseries_lookup _ _ _ _ _ _ _ H Hk)
      as (k & -> & [[Hc Hn]|[Hc (s & _ & Hl)]]).
    + split.
      * intros _. exists k, src. repeat split. apply candidates_nil. assumption.
      * intros _. rewrite elem_of_dom, Hn. intros [? ?]; discriminate.
    + split.
      * intros Hn. exfalso. apply Hn. rewrite elem_of_dom, Hl. eauto.
      * intros (k' & src' & [= <-] & [= <-] & Hall).
        exfalso. apply Hc. apply candidates_nil. assumption.
  - intros rd' a' b' H'.
    destruct (build_Ok _ _ _ _ _ _ H) as (src & -> & _ & Hin & Hout).
    destruct (build_Ok _ _ _ _ _ _ H') as (src' & -> & _ & Hin' & Hout').
    split; apply map_eq; intros key;
      (destruct (decide (key ∈ type_keys (selection w rs))) as [Hk|Hk];
       [ destruct (Hin _ Hk) as (k & first & Hkey & _ & Hf & HR & HU & _);
         destruct (Hin' _ Hk) as (k' & first' & Hkey' & _ & Hf' & HR' & HU' & _);
         assert (k' = k) as -> by congruence;
         assert (first' = first) as -> by congruence;
         simpl in *; congruence
       | destruct (Hout _ Hk) as (HR & HU & _);
         destruct (Hout' _ Hk) as (HR' & HU' & _); congruence ]).
Qed.

Lemma C6_key_sets_witness :
  exists b,
    build_single_workout_timeseries parse_decimal sample_workout sample_records
      true (TsList ["Watch"]) = Ok b /\
    (Some stand_hour ∈ dom (records b)) /\
    (Some stand_hour ∉ dom (timeseries b)) /\
    dom (records b) = dom (units b) /\
    (dom (timeseries b) ⊆ dom (records b)).
Proof.
  destruct (build_single_workout_timeseries parse_decimal sample_workout
              sample_records true (TsList ["Watch"])) as [b|e] eqn:Hb;
    [| vm_compute in Hb; discriminate].
  exists b. split; [reflexivity |].
  destruct (C6_key_sets parse_decimal sample_workout sample_records true
              (TsList ["Watch"]) b Hb) as (Hd & Hs & _ & _).
  assert (Hb' := Hb). vm_compute in Hb'. injection Hb' as <-.
  split; [vm_compute; reflexivity |].
  split; [vm_compute; intros H; inversion H |].
  split; assumption.
Defined.

(** ** Series: conversion and duplicated timestamps *)

Section SeriesFacts.
Variable float_of_str : string -> option float.

Lemma to_float_Ok v v' : to_float float_of_str v = Ok v' -> exists f, v' = VFloat f.
Proof.
  destruct v as [f|s|]; simpl.
  - intros [= <-]; eauto.
  - destruct (float_of_str s); [intros [= <-]; eauto | discriminate].
  - intros [= <-]; eauto.
Qed.

Lemma pd_Series_object ts_array :
  pd_Series float_of_str ts_array false = Ok (infer_objects ts_array).
Proof. reflexivity. Qed.

Lemma infer_objects_index ts_array : map fst (infer_objects ts_array) = map fst ts_array.
Proof.
  unfold infer_objects. destruct (infers_str (map snd ts_array)); [| reflexivity].
  rewrite map_map. reflexivity.
Qed.


(** The inferred series of a list of records, value by value. *)
Lemma infer_objects_rows (rows : list HKRecord) :
  infer_objects (map row_of rows)
  = map (fun r => (start_date r,
                   if infers_str (map value rows) then na_to_nan (value r) else value r))
      rows.
Proof.
  unfold infer_objects. rewrite !map_map. unfold row_of. simpl.
  destruct (infers_str (map value rows)); reflexivity.
Qed.

Lemma pd_Series_float ts_array ts :
  pd_Series float_of_str ts_array true = Ok ts ->
  Forall2 (fun row e => fst e = fst row /\ to_float float_of_str (snd row) = Ok (snd e))
    ts_array ts.
Proof.
  unfold pd_Series. intros H. apply mapM_Ok_Forall2 in H.
  eapply Forall2_impl; [exact H |]. intros [t v] [t' v'] Hrow; simpl in *.
  destruct (to_float float_of_str v) as [x|]; simpl in Hrow; [| discriminate].
  injection Hrow as <- <-. auto.
Qed.

End SeriesFacts.

Lemma dt_eq_stamp (t t' : datetime) : dt_eq t t' = true <-> utc_micros t = utc_micros t'.
Proof. unfold dt_eq. apply Z.eqb_eq. Qed.

Lemma existsb_dt_eq (t : datetime) (seen : list datetime) :
  existsb (dt_eq t) seen = true <-> In (utc_micros t) (map utc_micros seen).
Proof.
  rewrite existsb_exists, in_map_iff. split.
  - intros (t' & Hin & Heq). apply dt_eq_stamp in Heq. eauto.
  - intros (t' & Heq & Hin). exists t'. split; [assumption |].
    apply dt_eq_stamp. congruence.
Qed.

Lemma keep_unseen_cons seen e ts :
  keep_unseen seen (e :: ts) =
  if existsb (dt_eq (fst e)) seen then keep_unseen (fst e :: seen) ts
  else e :: keep_unseen (fst e :: seen) ts.
Proof.
  unfold keep_unseen; simpl. destruct (existsb _ seen); reflexivity.
Qed.

Lemma keep_unseen_sublist seen ts : sublist (keep_unseen seen ts) ts.
Proof.
  revert seen; induction ts as [|e ts IH]; intros seen.
  - constructor.
  - rewrite keep_unseen_cons. destruct (existsb _ seen).
    + apply sublist_cons, IH.
    + apply sublist_skip, IH.
Qed.





Lemma drop_duplicated_keep_unseen ts : drop_duplicated ts = keep_unseen [] ts.
Proof. reflexivity. Qed.

Section RemoveDuplicates.
Variable float_of_str : string -> option float.

Lemma build_key_dedup rows a acc key :
  build_key float_of_str rows true a (dedup_by_type acc) key =
  rmap dedup_by_type (build_key float_of_str rows false a acc key).
Proof.
  unfold build_key.
  destruct (filterM _ rows) as [grp|e]; simpl; [| reflexivity].
  destruct (index0 grp) as [first|e]; simpl; [| reflexivity].
  destruct (ts_array_of rows a key) as [ts_array|e]; simpl; [| reflexivity].
  case_bool_decide; [reflexivity |].
  destruct (py_lower key) as [lowered|e]; simpl; [| reflexivity].
  destruct (pd_Series _ _ _) as [ts|e]; simpl; [| reflexivity].
  unfold dedup_by_type; simpl. rewrite fmap_insert. reflexivity.
Qed.

Lemma foldM_build_key_dedup rows a ks acc :
  foldM (build_key float_of_str rows true a) (dedup_by_type acc) ks =
  rmap dedup_by_type (foldM (build_key float_of_str rows false a) acc ks).
Proof.
  revert acc; induction ks as [|key ks IH]; intros acc; simpl; [reflexivity |].
  rewrite build_key_dedup.
  destruct (build_key float_of_str rows false a acc key) as [acc1|e]; simpl;
    [apply IH | reflexivity].
Qed.

(** Removing duplicates is the last step of every iteration: the call
    with [rem_duplicates=True] is the call with [False] followed by
    [duplicated] on every series. *)
Lemma build_true_of_false w rs a :
  build_single_workout_timeseries float_of_str w rs true a =
  rmap without_duplicates (build_single_workout_timeseries float_of_str w rs false a).
Proof.
  destruct a as [|src| | |]; try reflexivity.
  rewrite !build_unfold.
  destruct (forallb (window_evaluates w) rs); [| reflexivity].
  replace (mkby_type ∅ ∅ ∅) with (dedup_by_type (mkby_type ∅ ∅ ∅))
    by (unfold dedup_by_type; simpl; rewrite fmap_empty; reflexivity).
  rewrite foldM_build_key_dedup.
  destruct (foldM _ _ _) as [acc|e]; reflexivity.
Qed.
End RemoveDuplicates.



(** ** Value representation of a series *)

Lemma Forall2_In_right {A B : Type} (P : A -> B -> Prop) (l : list A) (k : list B) (y : B) :
  Forall2 P l k -> In y k -> exists x, In x l /\ P x y.
Proof.
  induction 1 as [|x y' l k Hxy _ IH]; simpl; [intros [] |].
  intros [<-|Hin]; [eauto |].
  destruct (IH Hin) as (x' & ? & ?); eauto.
Qed.

(** C7 (as amended).  Under a key whose lower-cased name contains
    "category" the series holds the candidate records' values with every
    string and every number as it is; a missing value ([None]) is kept
    too, unless the candidates' values are strings and missing values
    only, with at least one string: the series is then a string series and
    holds NaN in its place.  Under every other key each value of the
    series is a float, the conversion of the value of a candidate
    record. *)
Theorem C7_series_values (float_of_str : string -> option float)
    (w : HKWorkout) (rs : list HKRecord) (rd : bool) (a : ts_source_arg)
    (b : workout_data) (k : string) (s : list (datetime * pyvalue)) :
  build_single_workout_timeseries float_of_str w rs rd a = Ok b ->
  timeseries b !! Some k = Some s ->
  exists src, a = TsList src /\
    (is_substring "category" (str_lower k) = true ->
       s = (if rd then drop_duplicated else fun ts => ts)
             (map (fun r =>
                     (start_date r,
                      if infers_str (map value (candidates k src (selection w rs)))
                      then na_to_nan (value r) else value r))
                (candidates k src (selection w rs))) /\
       Forall (fun e =>
                 exists r,
                   In r (candidates k src (selection w rs)) /\
                   fst e = start_date r /\
                   (snd e = value r \/
                    (is_missing (value r) = true /\ snd e = VFloat nan /\
                     exists r' text,
                       In r' (candidates k src (selection w rs)) /\
                       value r' = VStr text))) s) /\
    (is_substring "category" (str_lower k) = false ->
       Forall (fun e =>
                 exists r f,
                   In r (candidates k src (selection w rs)) /\
                   fst e = start_date r /\
                   to_float float_of_str (value r) = Ok (VFloat f) /\
                   snd e = VFloat f) s).
Proof.
  intros H Hl.
  destruct (build_timeseries_Some _ _ _ _ _ _ _ _ H Hl)
    as (k' & src & [= <-] & -> & _ & _ & Hs).
  exists src. split; [reflexivity |].
  unfold series_of, is_category in Hs.
  apply rbind_Ok in Hs as (ts & Ha & Hs). injection Hs as <-.
  split; intros Hcat; rewrite Hcat in Ha; simpl in Ha.
  - injection Ha as <-. rewrite infer_objects_rows.
    split; [destruct rd; reflexivity |].
    set (cand := candidates k src (selection w rs)).
    assert (Hall : Forall (fun e =>
              exists r, In r cand /\ fst e = start_date r /\
                (snd e = value r \/
                 (is_missing (value r) = true /\ snd e = VFloat nan /\
                  exists r' text, In r' cand /\ value r' = VStr text)))
              (map (fun r => (start_date r,
                              if infers_str (map value cand)
                              then na_to_nan (value r) else value r)) cand)).
    { apply Forall_forall. intros e He.
      apply list_elem_of_In, in_map_iff in He as (r & <- & Hr).
      exists r. split; [exact Hr |]. split; [reflexivity |]. simpl.
      destruct (infers_str (map value cand)) eqn:Hinf; [| left; reflexivity].
      unfold na_to_nan. destruct (is_missing (value r)) eqn:Hm; [| left; reflexivity].
      right. split; [reflexivity |]. split; [reflexivity |].
      unfold infers_str in Hinf. apply andb_prop in Hinf as [Hex _].
      apply existsb_exists in Hex as (v & Hv & Hstr).
      apply in_map_iff in Hv as (r' & <- & Hr').
      destruct (value r') as [|text|] eqn:Hval; try discriminate. eauto. }
    destruct rd; [| exact Hall].
    apply Forall_forall. intros e He.
    rewrite Forall_forall in Hall. apply Hall.
    rewrite drop_duplicated_keep_unseen in He.
    eapply elem_of_sublist; [exact He | apply keep_unseen_sublist].
  - apply pd_Series_float in Ha.
    assert (Hall : Forall (fun e =>
              exists r f,
                In r (candidates k src (selection w rs)) /\
                fst e = start_date r /\
                to_float float_of_str (value r) = Ok (VFloat f) /\
                snd e = VFloat f) ts).
    { apply Forall_forall. intros e He. apply list_elem_of_In in He.
      destruct (Forall2_In_right _ _ _ _ Ha He) as (row & Hrow & Hfst & Hv).
      apply in_map_iff in Hrow as (r & <- & Hr).
      destruct (to_float_Ok _ _ _ Hv) as [f Hf].
      exists r, f. simpl in *. rewrite Hf in Hv. auto. }
    destruct rd; [| exact Hall].
    apply Forall_forall. intros e He.
    rewrite Forall_forall in Hall. apply Hall.
    rewrite drop_duplicated_keep_unseen in He.
    eapply elem_of_sublist; [exact He | apply keep_unseen_sublist].
Qed.

Lemma C7_series_values_witness :
  map snd (series_at
             (built sample_workout
                (build_single_workout_timeseries parse_decimal sample_workout
                   stood_then_missing true (TsList ["Phone"]))) stand_hour)
  = [VStr "HKCategoryValueAppleStandHourStood"; VFloat nan] /\
  Forall (fun e =>
            exists r f,
              In r (candidates heart_rate ["Phone"]
                      (selection sample_workout stood_then_missing)) /\
              fst e = start_date r /\
              to_float parse_decimal (value r) = Ok (VFloat f) /\
              snd e = VFloat f)
    (series_at
       (built sample_workout
          (build_single_workout_timeseries parse_decimal sample_workout
             stood_then_missing true (TsList ["Phone"]))) heart_rate) /\
  map snd (series_at
             (built sample_workout
                (build_single_workout_timeseries parse_decimal sample_workout
                   stood_then_missing true (TsList ["Phone"]))) heart_rate)
  = [VFloat 72].
Proof.
  destruct (C7_series_values parse_decimal sample_workout stood_then_missing true
              (TsList ["Phone"])
              (built sample_workout
                 (build_single_workout_timeseries parse_decimal sample_workout
                    stood_then_missing true (TsList ["Phone"])))
              stand_hour
              (series_at
                 (built sample_workout
                    (build_single_workout_timeseries parse_decimal sample_workout
                       stood_then_missing true (TsList ["Phone"]))) stand_hour))
    as (src & Hsrc & Hcat & _); [vm_compute; reflexivity | vm_compute; reflexivity |].
  destruct (C7_series_values parse_decimal sample_workout stood_then_missing true
              (TsList ["Phone"])
              (built sample_workout
                 (build_single_workout_timeseries parse_decimal sample_workout
                    stood_then_missing true (TsList ["Phone"])))
              heart_rate
              (series_at
                 (built sample_workout
                    (build_single_workout_timeseries parse_decimal sample_workout
                       stood_then_missing true (TsList ["Phone"]))) heart_rate))
    as (src' & Hsrc' & _ & Hnum); [vm_compute; reflexivity | vm_compute; reflexivity |].
  injection Hsrc as <-. injection Hsrc' as <-.
  split; [| split].
  - destruct Hcat as [-> _]; [vm_compute; reflexivity |]. vm_compute. reflexivity.
  - apply Hnum. vm_compute. reflexivity.
  - vm_compute. reflexivity.
Defined.

(** The claim as written fails: the second value of a categorical series
    is NaN where the record holds [None]. *)
Lemma C7_counterexample :
  is_substring "category" (str_lower stand_hour) = true /\
  is_ok (build_single_workout_timeseries parse_decimal sample_workout
           stood_then_missing false (TsList ["Phone"])) = true /\
  map value (candidates stand_hour ["Phone"]
               (selection sample_workout stood_then_missing))
  = [VStr "HKCategoryValueAppleStandHourStood"; VNone] /\
  map snd (series_at
             (built sample_workout
                (build_single_workout_timeseries parse_decimal sample_workout
                   stood_then_missing false (TsList ["Phone"]))) stand_hour)
  = [VStr "HKCategoryValueAppleStandHourStood"; VFloat nan].
Proof. repeat split; vm_compute; reflexivity. Qed.

(** ** Order of the selected records *)

(** C3 (the code departs from the claim).  The selection is sorted on the
    ISO text of the start date, not on the instant.  With records logged
    under different UTC offsets the earlier record comes second, and two
    records of one instant change their relative order. *)
Theorem C3_sorted_on_iso_text :
  dt_lt (start_date logged_abroad) (start_date logged_utc) = true /\
  records_of_workout sample_workout [logged_abroad; logged_utc]
    = Ok [logged_utc; logged_abroad] /\
  dt_eq (start_date logged_abroad) (start_date logged_same_instant) = true /\
  records_of_workout sample_workout [logged_abroad; logged_same_instant]
    = Ok [logged_same_instant; logged_abroad] /\
  exists b,
    build_single_workout_timeseries parse_decimal sample_workout
      [logged_abroad; logged_utc] false (TsList ["Watch"]) = Ok b /\
    timeseries b !! Some heart_rate
      = Some [(start_date logged_utc, VFloat 110); (start_date logged_abroad, VFloat 100)].
Proof.
  split; [vm_compute; reflexivity |].
  split; [vm_compute; reflexivity |].
  split; [vm_compute; reflexivity |].
  split; [vm_compute; reflexivity |].
  eexists. split; vm_compute; reflexivity.
Qed.

(** What the sort does guarantee: the selection is a permutation of the
    records of the window, and records whose ISO texts are not ordered
    either way keep the order of the input list. *)
Lemma selection_Permutation (w : HKWorkout) (rs : list HKRecord) :
  Permutation (selection w rs) (List.filter (in_window w) rs).
Proof. apply sorted_Permutation. Qed.

Lemma str_lt_irrefl (s : string) : str_lt s s = false.
Proof.
  unfold str_lt, String.ltb.
  pose proof (String.compare_antisym s s) as H.
  destruct (String.compare s s); simpl in H; try discriminate; reflexivity.
Qed.

Lemma str_lt_spec (a b : string) : str_lt a b = true <-> String_as_OT.lt a b.
Proof.
  unfold str_lt, String.ltb. rewrite <- String_as_OT.cmp_lt.
  unfold String_as_OT.cmp. destruct (String.compare a b); split; congruence.
Qed.

Lemma str_lt_asym (a b : string) : str_lt a b = true -> str_lt b a = false.
Proof.
  intros Hab. destruct (str_lt b a) eqn:Hba; [| reflexivity].
  apply str_lt_spec in Hab, Hba.
  exfalso. apply (String_as_OT.lt_not_eq a a); [| reflexivity].
  eapply String_as_OT.lt_trans; eassumption.
Qed.

Lemma str_lt_total (a b : string) : str_lt a b = false -> str_lt b a = false -> a = b.
Proof.
  unfold str_lt, String.ltb. intros Hab Hba.
  pose proof (String.compare_antisym a b) as Hanti.
  destruct (String.compare a b) eqn:Hc; try discriminate.
  - apply String.compare_eq_iff. exact Hc.
  - destruct (String.compare b a); simpl in Hanti; discriminate.
Qed.

Lemma str_ge_trans (a b c : string) :
  str_lt b a = false -> str_lt c b = false -> str_lt c a = false.
Proof.
  intros Hba Hcb. destruct (str_lt c a) eqn:Hca; [| reflexivity].
  destruct (str_lt a b) eqn:Hab.
  - apply str_lt_spec in Hca, Hab.
    assert (Hcb' : str_lt c b = true).
    { apply str_lt_spec. eapply String_as_OT.lt_trans; eassumption. }
    congruence.
  - assert (a = b) as -> by (apply str_lt_total; assumption). congruence.
Qed.

(** The selection ascends in the ISO text of the start date. *)
Lemma selection_ascending_text (w : HKWorkout) (rs : list HKRecord) :
  StronglySorted
    (fun u v => str_lt (isoformat (start_date v)) (isoformat (start_date u)) = false)
    (selection w rs).
Proof.
  unfold selection.
  apply (sorted_ascending (fun x => isoformat (start_date x)) str_lt).
  - apply str_lt_asym.
  - apply str_ge_trans.
Qed.

Lemma selection_stable (w : HKWorkout) (rs : list HKRecord) (text : string) :
  List.filter (fun r => String.eqb (isoformat (start_date r)) text) (selection w rs)
  = List.filter (fun r => String.eqb (isoformat (start_date r)) text)
      (List.filter (in_window w) rs).
Proof.
  apply sorted_stable. intros x y Hx Hy.
  apply String.eqb_eq in Hx, Hy. rewrite Hx, Hy. apply str_lt_irrefl.
Qed.

(** ** Construction from an attribute map *)

Section Construction.
Variable parse_datetime : string -> option datetime.
Variable float_of_str : string -> option float.


















End Construction.




(** ** One bundle per workout *)

(** C9.  When the batch builder returns, it returns one bundle per input
    workout, the i-th bundle holding the i-th workout; and it returns
    whenever the worker count is acceptable and every single build
    returns. *)
Theorem C9_one_bundle_per_workout (float_of_str : string -> option float)
    (ws : list HKWorkout) (rs : list HKRecord) (n_threads : option Z) (rd : bool)
    (a : ts_source_arg) :
  (forall bs,
     build_workouts_timeseries float_of_str ws rs n_threads rd a = Ok bs ->
     length bs = length ws /\ map workout bs = ws /\
     Permutation (map workout bs) ws) /\
  (match n_threads with Some n => 0 < n | None => True end ->
   Forall (fun w => is_ok (build_single_workout_timeseries float_of_str w rs rd a) = true) ws ->
   exists bs, build_workouts_timeseries float_of_str ws rs n_threads rd a = Ok bs).
Proof.
  split.
  - intros bs H.
    assert (Hm : mapM (fun x => build_single_workout_timeseries float_of_str x rs rd a) ws
                 = Ok bs).
    { unfold build_workouts_timeseries in H.
      destruct n_threads as [n|]; [| exact H].
      destruct (n <=? 0); [discriminate | exact H]. }
    assert (Hw : map workout bs = ws).
    { apply mapM_Ok_Forall2 in Hm. clear H.
      induction Hm as [|w b ws' bs' Hb _ IH]; simpl; [reflexivity |].
      destruct (build_Ok _ _ _ _ _ _ Hb) as (_ & _ & -> & _). rewrite IH. reflexivity. }
    split; [| split].
    + rewrite <- Hw, length_map. reflexivity.
    + exact Hw.
    + rewrite Hw. reflexivity.
  - intros Hn Hall. unfold build_workouts_timeseries.
    destruct n_threads as [n|].
    + destruct (Z.leb_spec n 0); [lia |]. apply mapM_total. exact Hall.
    + apply mapM_total. exact Hall.
Qed.

Lemma C9_one_bundle_per_workout_witness :
  exists bs,
    build_workouts_timeseries parse_decimal [sample_workout; sample_workout]
      sample_records (Some 4) true (TsList ["Watch"]) = Ok bs /\
    length bs = 2%nat /\
    map workout bs = [sample_workout; sample_workout].
Proof.
  destruct (C9_one_bundle_per_workout parse_decimal [sample_workout; sample_workout]
              sample_records (Some 4) true (TsList ["Watch"])) as [Hshape Htotal].
  destruct Htotal as [bs Hbs].
  - reflexivity.
  - repeat constructor; vm_compute; reflexivity.
  - exists bs. destruct (Hshape bs Hbs) as (Hlen & Hmap & _).
    repeat split; assumption.
Defined.


#[warnings="-inexact-float"]
Example format_fixed_ex :
  format_fixed 3 140 = "140.000" /\ format_fixed 3 12.5 = "12.500"
  /\ format_fixed 2 2.675 = "2.67" /\ format_fixed 3 0.0005 = "0.001"
  /\ format_fixed 3 (-0.0001) = "-0.000" /\ format_fixed 2 0.125 = "0.12"
  /\ format_fixed 3 1e21 = "1000000000000000000000.000".
Proof. repeat split; vm_compute; reflexivity. Qed.

(** * Further properties of the module *)

(** ** Construction: when it succeeds and what it stores *)

Section ConstructionOutcome.
Variable parse_datetime : string -> option datetime.
Variable float_of_str : string -> option float.

(** A record is constructed exactly when the three dates are present and
    parse and, if a unit is given, the value is present and is a number. *)
Theorem HKRecord_init_succeeds_iff (xml_element : gmap string string) :
  (exists r, HKRecord_init parse_datetime float_of_str xml_element = Ok r) <->
  (exists cs ss es,
     xml_element !! "creationDate" = Some cs /\ is_Some (parse_datetime cs) /\
     xml_element !! "startDate" = Some ss /\ is_Some (parse_datetime ss) /\
     xml_element !! "endDate" = Some es /\ is_Some (parse_datetime es)) /\
  (is_Some (xml_element !! "unit") ->
   exists v, xml_element !! "value" = Some v /\ is_Some (float_of_str v)).
Proof.
  unfold HKRecord_init, attrib_item, dateutil_parse, py_float. split.
  - intros [r H].
    destruct (xml_element !! "creationDate") as [cs|]; simpl in H; [| discriminate].
    destruct (parse_datetime cs) as [cd|] eqn:Hcd; simpl in H; [| discriminate].
    destruct (xml_element !! "startDate") as [ss|]; simpl in H; [| discriminate].
    destruct (parse_datetime ss) as [sd|] eqn:Hsd; simpl in H; [| discriminate].
    destruct (xml_element !! "endDate") as [es|]; simpl in H; [| discriminate].
    destruct (parse_datetime es) as [ed|] eqn:Hed; simpl in H; [| discriminate].
    split.
    + exists cs, ss, es. rewrite Hcd, Hsd, Hed. repeat split; eauto.
    + intros [u Hu]. rewrite Hu in H.
      destruct (xml_element !! "value") as [v|]; simpl in H; [| discriminate].
      destruct (float_of_str v) as [f|] eqn:Hf; simpl in H; [| discriminate].
      exists v. rewrite Hf. eauto.
  - intros [(cs & ss & es & Hc & [cd Hcd] & Hs & [sd Hsd] & He & [ed Hed]) Hv].
    rewrite Hc; simpl. rewrite Hcd; simpl. rewrite Hs; simpl. rewrite Hsd; simpl.
    rewrite He; simpl. rewrite Hed; simpl.
    destruct (xml_element !! "unit") as [u|]; simpl; [| eauto].
    destruct Hv as (v & Hv & [f Hf]); [eauto |].
    rewrite Hv; simpl. rewrite Hf; simpl. eauto.
Qed.

Lemma HKRecord_init_Ok_inv (xml_element : gmap string string) (r : HKRecord) :
  HKRecord_init parse_datetime float_of_str xml_element = Ok r ->
  rec_type r = xml_element !! "type" /\
  source_name r = xml_element !! "sourceName" /\
  source_version r = xml_element !! "sourceVersion" /\
  device r = xml_element !! "device" /\
  rec_unit r = xml_element !! "unit" /\
  xml_element !! "creationDate" ≫= parse_datetime = Some (creation_date r) /\
  xml_element !! "startDate" ≫= parse_datetime = Some (start_date r) /\
  xml_element !! "endDate" ≫= parse_datetime = Some (end_date r) /\
  (is_float (value r) = true <-> is_Some (rec_unit r)) /\
  (forall f, value r = VFloat f ->
     xml_element !! "value" ≫= float_of_str = Some f) /\
  (rec_unit r = None ->
     value r = match xml_element !! "value" with Some s => VStr s | None => VNone end).
Proof.
  unfold HKRecord_init, attrib_item, dateutil_parse, py_float. intros H.
  destruct (xml_element !! "creationDate") as [cs|]; simpl in H; [| discriminate].
  destruct (parse_datetime cs) as [cd|] eqn:Hcd; simpl in H; [| discriminate].
  destruct (xml_element !! "startDate") as [ss|]; simpl in H; [| discriminate].
  destruct (parse_datetime ss) as [sd|] eqn:Hsd; simpl in H; [| discriminate].
  destruct (xml_element !! "endDate") as [es|]; simpl in H; [| discriminate].
  destruct (parse_datetime es) as [ed|] eqn:Hed; simpl in H; [| discriminate].
  destruct (xml_element !! "unit") as [u|]; simpl in H.
  - destruct (xml_element !! "value") as [v|]; simpl in H; [| discriminate].
    destruct (float_of_str v) as [f|] eqn:Hf; simpl in H; [| discriminate].
    injection H as <-. simpl. repeat split; eauto; try discriminate.
    intros f' [= <-]. exact Hf.
  - injection H as <-. simpl. repeat split; eauto; try discriminate.
    + destruct (xml_element !! "value"); discriminate.
    + intros [? ?]; discriminate.
    + intros f Hf. destruct (xml_element !! "value"); discriminate.
Qed.

(** What a constructed record holds: the attributes read with [.get] as
    the map has them ([None] when absent), the parsed dates, and a value
    that is a float exactly when the record has a unit and otherwise the
    untouched text of the attribute. *)
Theorem HKRecord_init_fields (xml_element : gmap string string) (r : HKRecord) :
  HKRecord_init parse_datetime float_of_str xml_element = Ok r ->
  rec_type r = xml_element !! "type" /\
  source_name r = xml_element !! "sourceName" /\
  source_version r = xml_element !! "sourceVersion" /\
  device r = xml_element !! "device" /\
  rec_unit r = xml_element !! "unit" /\
  xml_element !! "creationDate" ≫= parse_datetime = Some (creation_date r) /\
  xml_element !! "startDate" ≫= parse_datetime = Some (start_date r) /\
  xml_element !! "endDate" ≫= parse_datetime = Some (end_date r) /\
  (is_float (value r) = true <-> is_Some (rec_unit r)) /\
  (forall f, value r = VFloat f ->
     xml_element !! "value" ≫= float_of_str = Some f) /\
  (rec_unit r = None ->
     value r = match xml_element !! "value" with Some s => VStr s | None => VNone end).
Proof. apply HKRecord_init_Ok_inv. Qed.

(** A workout is constructed exactly when the three numeric attributes
    are present and are numbers and the three dates are present and
    parse. *)
Theorem HKWorkout_init_succeeds_iff (xml_element : gmap string string) :
  (exists w, HKWorkout_init parse_datetime float_of_str xml_element = Ok w) <->
  (exists d td te,
     xml_element !! "duration" = Some d /\ is_Some (float_of_str d) /\
     xml_element !! "totalDistance" = Some td /\ is_Some (float_of_str td) /\
     xml_element !! "totalEnergyBurned" = Some te /\ is_Some (float_of_str te)) /\
  (exists cs ss es,
     xml_element !! "creationDate" = Some cs /\ is_Some (parse_datetime cs) /\
     xml_element !! "startDate" = Some ss /\ is_Some (parse_datetime ss) /\
     xml_element !! "endDate" = Some es /\ is_Some (parse_datetime es)).
Proof.
  unfold HKWorkout_init, attrib_item, dateutil_parse, py_float. split.
  - intros [w H].
    destruct (xml_element !! "duration") as [d|]; simpl in H; [| discriminate].
    destruct (float_of_str d) as [fd|] eqn:Hfd; simpl in H; [| discriminate].
    destruct (xml_element !! "totalDistance") as [td|]; simpl in H; [| discriminate].
    destruct (float_of_str td) as [ftd|] eqn:Hftd; simpl in H; [| discriminate].
    destruct (xml_element !! "totalEnergyBurned") as [te|]; simpl in H; [| discriminate].
    destruct (float_of_str te) as [fte|] eqn:Hfte; simpl in H; [| discriminate].
    destruct (xml_element !! "creationDate") as [cs|]; simpl in H; [| discriminate].
    destruct (parse_datetime cs) as [cd|] eqn:Hcd; simpl in H; [| discriminate].
    destruct (xml_element !! "startDate") as [ss|]; simpl in H; [| discriminate].
    destruct (parse_datetime ss) as [sd|] eqn:Hsd; simpl in H; [| discriminate].
    destruct (xml_element !! "endDate") as [es|]; simpl in H; [| discriminate].
    destruct (parse_datetime es) as [ed|] eqn:Hed; simpl in H; [| discriminate].
    split.
    + exists d, td, te. rewrite Hfd, Hftd, Hfte. repeat split; eauto.
    + exists cs, ss, es. rewrite Hcd, Hsd, Hed. repeat split; eauto.
  - intros [(d & td & te & Hd & [fd Hfd] & Htd & [ftd Hftd] & Hte & [fte Hfte])
            (cs & ss & es & Hc & [cd Hcd] & Hs & [sd Hsd] & He & [ed Hed])].
    rewrite Hd; simpl. rewrite Hfd; simpl. rewrite Htd; simpl. rewrite Hftd; simpl.
    rewrite Hte; simpl. rewrite Hfte; simpl.
    rewrite Hc; simpl. rewrite Hcd; simpl. rewrite Hs; simpl. rewrite Hsd; simpl.
    rewrite He; simpl. rewrite Hed; simpl. eauto.
Qed.

End ConstructionOutcome.

Lemma HKRecord_init_fields_witness :
  exists r,
    HKRecord_init parse_export_date parse_decimal stand_hour_attributes = Ok r /\
    device r = None /\ rec_unit r = None /\
    value r = VStr "HKCategoryValueAppleStandHourStood".
Proof.
  destruct (HKRecord_init parse_export_date parse_decimal stand_hour_attributes)
    as [r|e] eqn:Hr; [| vm_compute in Hr; discriminate].
  exists r. split; [reflexivity |].
  destruct (HKRecord_init_fields parse_export_date parse_decimal
              stand_hour_attributes r Hr)
    as (_ & _ & _ & Hd & Hu & _ & _ & _ & _ & _ & Hv).
  assert (Hu' : rec_unit r = None) by (rewrite Hu; reflexivity).
  split; [rewrite Hd; reflexivity |].
  split; [exact Hu' |].
  rewrite (Hv Hu'). reflexivity.
Defined.

(** ** Text of a record *)

(** [str(record)] returns a text exactly for the records constructed
    with a unit.  For a record constructed without one (a categorical
    record) the method raises [UnboundLocalError]: its second branch never
    binds the name it returns. *)
Theorem HKRecord_str_needs_unit (parse_datetime : string -> option datetime)
    (float_of_str : string -> option float) (format_f : nat -> float -> string)
    (xml_element : gmap string string) (r : HKRecord) :
  HKRecord_init parse_datetime float_of_str xml_element = Ok r ->
  (is_Some (xml_element !! "unit") -> exists s, HKRecord_str format_f r = inl s) /\
  (xml_element !! "unit" = None ->
   HKRecord_str format_f r = inr (UnboundLocalError "ret_str")).
Proof.
  intros H.
  destruct (HKRecord_init_Ok_inv _ _ _ _ H)
    as (_ & _ & _ & _ & Hu & _ & _ & _ & Hfl & _ & Hraw).
  split.
  - intros Hsome. rewrite <- Hu in Hsome. apply Hfl in Hsome.
    unfold HKRecord_str. destruct (value r); try discriminate. eauto.
  - intros Hnone. rewrite <- Hu in Hnone.
    unfold HKRecord_str. rewrite (Hraw Hnone).
    destruct (xml_element !! "value"); reflexivity.
Qed.

Lemma HKRecord_str_needs_unit_witness :
  exists r r',
    HKRecord_init parse_export_date parse_decimal stand_hour_attributes = Ok r /\
    HKRecord_str format_fixed r = inr (UnboundLocalError "ret_str") /\
    HKRecord_init parse_export_date parse_decimal record_without_source = Ok r' /\
    exists s, HKRecord_str format_fixed r' = inl s.
Proof.
  destruct (HKRecord_init parse_export_date parse_decimal stand_hour_attributes)
    as [r|e] eqn:Hr; [| vm_compute in Hr; discriminate].
  destruct (HKRecord_init parse_export_date parse_decimal record_without_source)
    as [r'|e] eqn:Hr'; [| vm_compute in Hr'; discriminate].
  exists r, r'. split; [reflexivity |].
  split.
  - apply (proj2 (HKRecord_str_needs_unit parse_export_date parse_decimal
                    format_fixed stand_hour_attributes r Hr)).
    vm_compute. reflexivity.
  - split; [reflexivity |].
    apply (proj1 (HKRecord_str_needs_unit parse_export_date parse_decimal
                    format_fixed record_without_source r' Hr')).
    vm_compute. eauto.
Defined.

Example HKRecord_str_ex :
  HKRecord_str format_fixed (sample heart_rate "Watch" (Some "count/min") 10 15 (VFloat 140))
  = inl "
            RECORD - 2020-01-05 10:15:00+02:00

            HKQuantityTypeIdentifierHeartRate from Watch

            ======================================================================

            From 2020-01-05 10:15:00+02:00 to 2020-01-05 10:15:00+02:00

            Value: 140.000 count/min

            ".
Proof. vm_compute. reflexivity. Qed.

(** ** The pool: results in submission order, first exception wins *)

Lemma mapM_Forall2_Ok {A B : Type} (f : A -> result B) (l : list A) (ys : list B) :
  Forall2 (fun x y => f x = Ok y) l ys -> mapM f l = Ok ys.
Proof.
  induction 1 as [|x y l ys Hxy _ IH]; simpl; [reflexivity |].
  rewrite Hxy, IH. reflexivity.
Qed.

Lemma mapM_first_error {A B : Type} (f : A -> result B) (l1 l2 : list A) (x : A) (e : exn) :
  Forall (fun y => is_ok (f y) = true) l1 -> f x = Raise e ->
  mapM f (l1 ++ x :: l2) = Raise e.
Proof.
  induction 1 as [|y l1 Hy _ IH]; intros Hx; simpl.
  - rewrite Hx. reflexivity.
  - apply is_ok_true in Hy as [b ->]. simpl. rewrite (IH Hx). reflexivity.
Qed.

Lemma load_xml_tag_accepted {T : Type} xml_root selected_tag
    (output_class : Element -> result T) n_threads :
  pool_accepts n_threads ->
  load_xml_tag xml_root selected_tag output_class n_threads
  = mapM output_class (findall xml_root selected_tag).
Proof.
  unfold load_xml_tag, pool_accepts. destruct n_threads as [n|]; [| reflexivity].
  intros Hn. destruct (Z.leb_spec n 0); [lia | reflexivity].
Qed.

Section LoadingFacts.
Variable parse_datetime : string -> option datetime.
Variable float_of_str : string -> option float.

(** [load_records] and [load_workouts] return exactly the objects
    constructed from the [Record] (resp. [Workout]) children of the root,
    one per element and in document order. *)
Theorem load_in_document_order (xml_root : Element) (n_threads : option Z) :
  pool_accepts n_threads ->
  (forall rs,
     load_records parse_datetime float_of_str xml_root n_threads = Ok rs <->
     Forall2 (fun x r => HKRecord_init parse_datetime float_of_str (el_attrib x) = Ok r)
       (findall xml_root "Record") rs) /\
  (forall ws,
     load_workouts parse_datetime float_of_str xml_root n_threads = Ok ws <->
     Forall2 (fun x w => HKWorkout_init parse_datetime float_of_str (el_attrib x) = Ok w)
       (findall xml_root "Workout") ws).
Proof.
  intros Hn. unfold load_records, load_workouts.
  rewrite !load_xml_tag_accepted by assumption.
  split; intros objs; split;
    [apply mapM_Ok_Forall2 | apply mapM_Forall2_Ok
    |apply mapM_Ok_Forall2 | apply mapM_Forall2_Ok].
Qed.

(** One element that cannot be constructed fails the whole load: the
    exception of the first such [Record] element in document order is the
    exception of [load_records], whatever follows it. *)
Theorem load_records_first_error (xml_root : Element) (n_threads : option Z)
    (before after : list Element) (x : Element) (e : exn) :
  pool_accepts n_threads ->
  findall xml_root "Record" = before ++ x :: after ->
  Forall (fun y => is_ok (HKRecord_init parse_datetime float_of_str (el_attrib y)) = true)
    before ->
  HKRecord_init parse_datetime float_of_str (el_attrib x) = Raise e ->
  load_records parse_datetime float_of_str xml_root n_threads = Raise e.
Proof.
  intros Hn Hsplit Hbefore Hx. unfold load_records.
  rewrite load_xml_tag_accepted by assumption.
  rewrite Hsplit. apply mapM_first_error; assumption.
Qed.

(** Children of the root with another tag have no influence on
    [load_records]. *)
Theorem load_records_ignores_other_tags (t : string) (a : gmap string string)
    (before after : list Element) (x : Element) (n_threads : option Z) :
  el_tag x <> "Record" ->
  load_records parse_datetime float_of_str (mkElement t a (before ++ x :: after)) n_threads
  = load_records parse_datetime float_of_str (mkElement t a (before ++ after)) n_threads.
Proof.
  intros Hx. unfold load_records, load_xml_tag, findall. simpl.
  rewrite !List.filter_app. simpl.
  destruct (String.eqb_spec (el_tag x) "Record"); [contradiction | reflexivity].
Qed.

(** A worker count below one is refused before any element or workout is
    looked at. *)
Theorem worker_count_below_one (n : Z) (xml_root : Element) (ws : list HKWorkout)
    (rs : list HKRecord) (rd : bool) (a : ts_source_arg) :
  n <= 0 ->
  load_records parse_datetime float_of_str xml_root (Some n) = Raise ValueError /\
  load_workouts parse_datetime float_of_str xml_root (Some n) = Raise ValueError /\
  build_workouts_timeseries float_of_str ws rs (Some n) rd a = Raise ValueError.
Proof.
  intros Hn. unfold load_records, load_workouts, load_xml_tag, build_workouts_timeseries.
  destruct (Z.leb_spec n 0); [auto | lia].
Qed.

End LoadingFacts.

Lemma load_in_document_order_witness :
  exists rs ws,
    load_records parse_export_date parse_decimal (sample_document false) (Some 8) = Ok rs /\
    load_workouts parse_export_date parse_decimal (sample_document false) None = Ok ws /\
    Forall2 (fun x r => HKRecord_init parse_export_date parse_decimal (el_attrib x) = Ok r)
      (findall (sample_document false) "Record") rs /\
    Forall2 (fun x w => HKWorkout_init parse_export_date parse_decimal (el_attrib x) = Ok w)
      (findall (sample_document false) "Workout") ws.
Proof.
  destruct (load_records parse_export_date parse_decimal (sample_document false) (Some 8))
    as [rs|e] eqn:Hrs; [| vm_compute in Hrs; discriminate].
  destruct (load_workouts parse_export_date parse_decimal (sample_document false) None)
    as [ws|e] eqn:Hws; [| vm_compute in Hws; discriminate].
  exists rs, ws. split; [reflexivity |]. split; [reflexivity |].
  split.
  - apply (proj1 (load_in_document_order parse_export_date parse_decimal
                    (sample_document false) (Some 8) eq_refl)).
    exact Hrs.
  - apply (proj2 (load_in_document_order parse_export_date parse_decimal
                    (sample_document false) None I)).
    exact Hws.
Defined.

Lemma load_records_first_error_witness :
  load_records parse_export_date parse_decimal (sample_document true) None
  = Raise (KeyError "startDate").
Proof.
  apply (load_records_first_error parse_export_date parse_decimal
           (sample_document true) None
           [ mkElement "Record" record_without_source
               [ mkElement "MetadataEntry"
                   (list_to_map [("key", "HKMetadataKeyHeartRateMotionContext")]) [] ];
             mkElement "Record" stand_hour_attributes [] ]
           [ mkElement "Record" (delete "creationDate" record_without_source) [] ]
           (mkElement "Record" (delete "startDate" record_without_source) [])).
  - exact I.
  - vm_compute. reflexivity.
  - repeat constructor; vm_compute; reflexivity.
  - vm_compute. reflexivity.
Defined.

Lemma load_records_ignores_other_tags_witness :
  load_records parse_export_date parse_decimal
    (mkElement "HealthData" ∅
       ([mkElement "Record" record_without_source []]
        ++ mkElement "Workout" workout_without_source []
        :: [mkElement "Record" stand_hour_attributes []])) None
  = load_records parse_export_date parse_decimal
      (mkElement "HealthData" ∅
         ([mkElement "Record" record_without_source []]
          ++ [mkElement "Record" stand_hour_attributes []])) None.
Proof.
  apply load_records_ignores_other_tags. simpl. discriminate.
Defined.

Lemma worker_count_below_one_witness :
  load_records parse_export_date parse_decimal (sample_document false) (Some 0)
  = Raise ValueError /\
  load_workouts parse_export_date parse_decimal (sample_document false) (Some 0)
  = Raise ValueError /\
  build_workouts_timeseries parse_decimal [] sample_records (Some 0) true (TsList [])
  = Raise ValueError.
Proof.
  apply (worker_count_below_one parse_export_date parse_decimal 0). lia.
Defined.

(** ** The builder: when it returns *)

Lemma filterM_Ok_all {A : Type} (p : A -> result bool) (l ys : list A) (x : A) :
  filterM p l = Ok ys -> In x l -> exists b, p x = Ok b.
Proof.
  revert ys; induction l as [|y l IH]; intros ys H; [intros [] |].
  simpl in H. inv_bind H. inv_bind H.
  intros [<-|Hin]; eauto.
Qed.

Lemma mapM_Ok_iff {A B : Type} (f : A -> result B) (l : list A) :
  (exists ys, mapM f l = Ok ys) <-> Forall (fun x => exists y, f x = Ok y) l.
Proof.
  split.
  - intros [ys H]. apply mapM_Ok_Forall2 in H.
    induction H; constructor; eauto.
  - intros H. apply mapM_total.
    eapply Forall_impl; [exact H |]. intros x [y Hy]; simpl. rewrite Hy. reflexivity.
Qed.

Lemma foldM_total {A S : Type} (body : S -> A -> result S) (l : list A) :
  (forall x, In x l -> forall acc, exists acc', body acc x = Ok acc') ->
  forall acc, exists acc', foldM body acc l = Ok acc'.
Proof.
  induction l as [|x l IH]; intros Hbody acc; simpl; [eauto |].
  destruct (Hbody x (or_introl eq_refl) acc) as [acc1 ->]. simpl.
  apply IH. intros; apply Hbody; simpl; auto.
Qed.

Section BuilderOutcome.
Variable float_of_str : string -> option float.

Lemma pd_Series_Ok_iff (ts_array : list (datetime * pyvalue)) :
  (exists ts, pd_Series float_of_str ts_array true = Ok ts) <->
  Forall (fun row => exists v, to_float float_of_str (snd row) = Ok v) ts_array.
Proof.
  unfold pd_Series. rewrite mapM_Ok_iff. split; intros H.
  - eapply Forall_impl; [exact H |]. intros row [y Hy]; simpl in *.
    destruct (to_float float_of_str (snd row)); [eauto | discriminate].
  - eapply Forall_impl; [exact H |]. intros row [v Hv]; simpl in *.
    rewrite Hv. simpl. eauto.
Qed.

Lemma build_key_total rows rd src acc k :
  Forall (fun r => is_Some (rec_type r)) rows ->
  Some k ∈ type_keys rows ->
  (is_substring "category" (str_lower k) = false ->
   Forall (fun r => exists v, to_float float_of_str (value r) = Ok v)
     (candidates k src rows)) ->
  exists acc', build_key float_of_str rows rd (TsList src) acc (Some k) = Ok acc'.
Proof.
  intros HF Hk Hconv. unfold build_key.
  assert (Hgrp : filterM (fun r => py_in_str (Some k) (rec_type r)) rows
                 = Ok (List.filter (has_type k) rows)).
  { apply filterM_pure. eapply Forall_impl; [exact HF |].
    intros r [t Ht]; simpl. unfold has_type. rewrite Ht. reflexivity. }
  rewrite Hgrp. simpl.
  destruct (group_nonempty _ _ _ Hk Hgrp) as [first ->]. simpl.
  rewrite (ts_array_of_list k src rows HF). simpl.
  case_bool_decide; [eauto |].
  destruct (is_substring "category" (str_lower k)) eqn:Hcat; simpl; [eauto |].
  destruct (proj2 (pd_Series_Ok_iff (map row_of (candidates k src rows)))) as [ts Hts].
  { rewrite Forall_map. exact (Hconv eq_refl). }
  unfold pd_Series in Hts. rewrite Hts. simpl. eauto.
Qed.

Lemma build_Ok_typed (w : HKWorkout) (rs : list HKRecord) (rd : bool)
    (a : ts_source_arg) (b : workout_data) :
  build_single_workout_timeseries float_of_str w rs rd a = Ok b ->
  Forall (fun r => is_Some (rec_type r)) (selection w rs).
Proof.
  intros H. destruct (build_Ok _ _ _ _ _ _ H) as (src & _ & _ & Hin & _).
  apply Forall_forall. intros r Hr. apply list_elem_of_In in Hr.
  destruct (Hin (rec_type r)) as (_ & _ & _ & HF & _).
  { apply elem_of_type_keys; eauto. }
  rewrite Forall_forall in HF. apply HF, list_elem_of_In, Hr.
Qed.

Lemma build_total (w : HKWorkout) (rs : list HKRecord) (rd : bool) (src : list string) :
  forallb (window_evaluates w) rs = true ->
  Forall (fun r => is_Some (rec_type r)) (selection w rs) ->
  (forall k, Some k ∈ type_keys (selection w rs) ->
     is_substring "category" (str_lower k) = false ->
     Forall (fun r => exists v, to_float float_of_str (value r) = Ok v)
       (candidates k src (selection w rs))) ->
  exists b, build_single_workout_timeseries float_of_str w rs rd (TsList src) = Ok b.
Proof.
  intros Hwin HF Hconv. rewrite build_unfold, Hwin.
  destruct (foldM_total
              (build_key float_of_str (selection w rs) rd (TsList src))
              (elements (type_keys (selection w rs)))) with (acc := mkby_type ∅ ∅ ∅)
    as [acc Hacc].
  - intros key Hkey acc.
    apply list_elem_of_In, elem_of_elements in Hkey.
    assert (Hk := Hkey). apply elem_of_type_keys in Hk as (r & Hr & Ht).
    rewrite Forall_forall in HF. destruct (HF r) as [t Hrt];
      [apply list_elem_of_In; exact Hr |].
    assert (key = Some t) as -> by congruence.
    apply build_key_total; [apply Forall_forall; exact HF | exact Hkey |].
    intros Hcat. apply Hconv; assumption.
  - rewrite Hacc. simpl. eauto.
Qed.

(** The builder returns, for a list of sources, exactly when the window
    test can be evaluated on every record of the input (no comparison of
    an offset-naive with an offset-aware start date is reached), every
    selected record has a type and, under every key that is not
    categorical, every candidate value can be converted to a float. *)
Theorem build_returns_iff (w : HKWorkout) (rs : list HKRecord) (rd : bool)
    (src : list string) :
  (exists b, build_single_workout_timeseries float_of_str w rs rd (TsList src) = Ok b) <->
  forallb (window_evaluates w) rs = true /\
  Forall (fun r => is_Some (rec_type r)) (selection w rs) /\
  (forall k, Some k ∈ type_keys (selection w rs) ->
     is_substring "category" (str_lower k) = false ->
     Forall (fun r => exists v, to_float float_of_str (value r) = Ok v)
       (candidates k src (selection w rs))).
Proof.
  split.
  - intros [b H]. split; [eapply build_Ok_window; exact H |].
    split; [eapply build_Ok_typed; exact H |].
    intros k Hk Hcat.
    destruct (build_timeseries_lookup _ _ _ _ _ _ _ H Hk)
      as (k' & [= <-] & [[Hc _]|[_ (s & Hs & _)]]).
    + rewrite Hc. constructor.
    + unfold series_of, is_category in Hs. rewrite Hcat in Hs. simpl in Hs.
      apply rbind_Ok in Hs as (ts & Hts & _).
      assert (Hex : exists ts, pd_Series float_of_str
                      (map row_of (candidates k src (selection w rs))) true
                    = Ok ts) by eauto.
      apply pd_Series_Ok_iff in Hex. rewrite Forall_map in Hex. exact Hex.
  - intros (Hwin & HF & Hconv). apply build_total; assumption.
Qed.

(** A selected record without a type makes the builder raise
    [TypeError], whatever the other arguments are. *)
Theorem build_untyped_record_raises (w : HKWorkout) (rs : list HKRecord) (rd : bool)
    (a : ts_source_arg) (r : HKRecord) :
  In r rs -> in_window w r = true -> rec_type r = None ->
  build_single_workout_timeseries float_of_str w rs rd a = Raise TypeError.
Proof.
  intros Hr Hw Ht. destruct a as [|src| | |]; try reflexivity.
  rewrite build_unfold.
  destruct (forallb (window_evaluates w) rs); [| reflexivity].
  assert (Hrow : In r (selection w rs)).
  { apply selection_In. split; assumption. }
  destruct (elements (type_keys (selection w rs))) as [|key ks] eqn:Hel.
  - assert (Hin : rec_type r ∈ type_keys (selection w rs))
      by (apply elem_of_type_keys; eauto).
    apply elem_of_elements in Hin. rewrite Hel in Hin. inversion Hin.
  - simpl. unfold build_key at 1.
    destruct (filterM (fun r0 => py_in_str key (rec_type r0)) (selection w rs))
      as [grp|e] eqn:Hg.
    + destruct (filterM_Ok_all _ _ _ r Hg Hrow) as [b Hb].
      rewrite Ht in Hb. destruct key; discriminate.
    + simpl. apply filterM_Raise in Hg as (y & _ & Hy).
      apply py_in_str_Raise in Hy as ->. reflexivity.
Qed.

End BuilderOutcome.

(** ** The builder: edges of the selection *)

Lemma filter_none {A : Type} (p : A -> bool) (l : list A) :
  (forall x, In x l -> p x = false) -> List.filter p l = [].
Proof.
  induction l as [|x l IH]; intros H; simpl; [reflexivity |].
  rewrite (H x (or_introl eq_refl)). apply IH. intros; apply H; simpl; auto.
Qed.

Lemma filter_idem {A : Type} (p : A -> bool) (l : list A) :
  List.filter p (List.filter p l) = List.filter p l.
Proof.
  induction l as [|x l IH]; simpl; [reflexivity |].
  destruct (p x) eqn:Hx; simpl; [rewrite Hx, IH; reflexivity | exact IH].
Qed.

Lemma forallb_filter_true {A : Type} (p q : A -> bool) (l : list A) :
  forallb p l = true -> forallb p (List.filter q l) = true.
Proof.
  induction l as [|x l IH]; simpl; [reflexivity |].
  intros H. apply andb_prop in H as [Hx Hl].
  destruct (q x); simpl; [rewrite Hx |]; auto.
Qed.

Lemma forallb_filter_kept {A : Type} (p q : A -> bool) (l : list A) :
  forallb p (List.filter (fun x => negb (p x) || q x) l) = forallb p l.
Proof.
  induction l as [|x l IH]; simpl; [reflexivity |].
  destruct (p x) eqn:Hx; simpl.
  - destruct (q x); simpl; [rewrite Hx |]; simpl.
    + exact IH.
    + rewrite IH. reflexivity.
  - rewrite Hx. reflexivity.
Qed.

Lemma filter_filter_kept {A : Type} (p q : A -> bool) (l : list A) :
  forallb p l = true ->
  List.filter q (List.filter (fun x => negb (p x) || q x) l) = List.filter q l.
Proof.
  induction l as [|x l IH]; simpl; [reflexivity |].
  intros H. apply andb_prop in H as [Hx Hl]. rewrite Hx. simpl.
  destruct (q x) eqn:Hq; simpl; [rewrite Hq; f_equal |]; auto.
Qed.

Section Selection.
Variable float_of_str : string -> option float.

Lemma selected_record_grouped w rs rd a b r :
  build_single_workout_timeseries float_of_str w rs rd a = Ok b ->
  In r (selection w rs) ->
  exists k,
    rec_type r = Some k /\
    records b !! Some k = Some (List.filter (has_type k) (selection w rs)) /\
    In r (List.filter (has_type k) (selection w rs)).
Proof.
  intros H Hrow.
  destruct (build_Ok _ _ _ _ _ _ H) as (src & -> & _ & Hin & _).
  destruct (Hin (rec_type r)) as (k & first & Hk & _ & _ & HR & _).
  { apply elem_of_type_keys. eauto. }
  exists k. split; [exact Hk |]. rewrite <- Hk. split; [exact HR |].
  apply filter_In. split; [assumption | apply has_type_own; assumption].
Qed.

(** With a list of sources, the builder returns the bundle with three
    empty dictionaries exactly when the window test can be evaluated on
    every record and no record starts inside the workout; this is a
    result, not an error.  (When the test cannot be evaluated on some
    record, an offset-naive start date meeting an offset-aware one, the
    builder raises [TypeError] instead.) *)
Theorem build_empty_bundle_iff (w : HKWorkout) (rs : list HKRecord) (rd : bool)
    (src : list string) :
  (build_single_workout_timeseries float_of_str w rs rd (TsList src)
   = Ok (mkworkout_data w ∅ ∅ ∅)
   <-> forallb (window_evaluates w) rs = true /\
       (forall r, In r rs -> in_window w r = false)) /\
  (forallb (window_evaluates w) rs = false ->
   build_single_workout_timeseries float_of_str w rs rd (TsList src) = Raise TypeError).
Proof.
  split; [| intros Hwin; rewrite build_unfold, Hwin; reflexivity].
  split.
  - intros H. split; [eapply build_Ok_window; exact H |].
    intros r Hr. destruct (in_window w r) eqn:Hw; [| reflexivity].
    exfalso.
    destruct (selected_record_grouped _ _ _ _ _ r H) as (k & _ & Hl & _).
    { apply selection_In. split; assumption. }
    simpl in Hl. rewrite lookup_empty in Hl. discriminate.
  - intros [Hwin H]. rewrite build_unfold, Hwin. unfold selection.
    rewrite (filter_none _ rs) by exact H. cbn [sorted].
    unfold type_keys. simpl. rewrite elements_empty. reflexivity.
Qed.

(** Records on which the window test evaluates to [False] have no
    influence on the outcome: the builder behaves on the full list as on
    the list without them.  In particular, when the test can be evaluated
    on every record (otherwise the builder raises [TypeError]), it behaves
    as on the records of the window alone. *)
Theorem build_ignores_records_outside (w : HKWorkout) (rs : list HKRecord) (rd : bool)
    (a : ts_source_arg) :
  build_single_workout_timeseries float_of_str w rs rd a
  = build_single_workout_timeseries float_of_str w
      (List.filter (fun r => negb (window_evaluates w r) || in_window w r) rs) rd a /\
  (forallb (window_evaluates w) rs = true ->
   build_single_workout_timeseries float_of_str w rs rd a
   = build_single_workout_timeseries float_of_str w
       (List.filter (fun r => dt_le (wk_start_date w) (start_date r)
                              && dt_le (start_date r) (wk_end_date w)) rs) rd a).
Proof.
  split.
  - destruct a as [|src| | |]; try reflexivity.
    rewrite !build_unfold, forallb_filter_kept.
    destruct (forallb (window_evaluates w) rs) eqn:Hwin; [| reflexivity].
    unfold selection. rewrite filter_filter_kept by exact Hwin. reflexivity.
  - intros Hwin. destruct a as [|src| | |]; try reflexivity.
    rewrite !build_unfold, Hwin.
    change (fun r => dt_le (wk_start_date w) (start_date r)
                     && dt_le (start_date r) (wk_end_date w)) with (in_window w).
    rewrite forallb_filter_true by exact Hwin.
    unfold selection. rewrite filter_idem. reflexivity.
Qed.

(** With an empty list of sources every series is left out, while
    "records" and "units" are filled as usual: the builder returns exactly
    when the window test can be evaluated on every record and every
    selected record has a type, and "timeseries" is empty. *)
Theorem build_empty_source_list (w : HKWorkout) (rs : list HKRecord) (rd : bool) :
  ((exists b, build_single_workout_timeseries float_of_str w rs rd (TsList []) = Ok b)
   <-> forallb (window_evaluates w) rs = true /\
       Forall (fun r => is_Some (rec_type r)) (selection w rs)) /\
  (forall b,
     build_single_workout_timeseries float_of_str w rs rd (TsList []) = Ok b ->
     timeseries b = ∅ /\
     forall r, In r rs -> in_window w r = true ->
       exists k g, rec_type r = Some k /\ records b !! Some k = Some g /\ In r g).
Proof.
  assert (Hnil : forall k rows, candidates k [] rows = []).
  { intros k rows. unfold candidates. apply filter_none. intros r _.
    unfold from_source. destruct (source_name r) as [x|]; [| apply andb_false_r].
    rewrite bool_decide_eq_false_2; [apply andb_false_r |].
    intros Hx. inversion Hx. }
  split.
  - split.
    + intros [b H]. split; [eapply build_Ok_window | eapply build_Ok_typed]; exact H.
    + intros [Hwin HF]. apply build_total; [exact Hwin | exact HF |].
      intros k _ _. rewrite Hnil. constructor.
  - intros b H. split.
    + apply map_eq. intros key. rewrite lookup_empty.
      destruct (timeseries b !! key) as [s|] eqn:Hs; [| reflexivity].
      destruct (build_timeseries_Some _ _ _ _ _ _ _ _ H Hs)
        as (k & src & _ & [= <-] & _ & Hc & _).
      exfalso. apply Hc. apply Hnil.
    + intros r Hr Hw.
      destruct (selected_record_grouped _ _ _ _ _ r H) as (k & Hk & Hl & Hin).
      { apply selection_In. split; assumption. }
      eauto.
Qed.

(** The unit stored under a key is the unit of the first record, in the
    order of the sorted selection, whose type contains the key; that
    record may be of another type than the key. *)
Theorem units_from_first_of_group (w : HKWorkout) (rs : list HKRecord) (rd : bool)
    (a : ts_source_arg) (b : workout_data) (key : option string) (u : option string) :
  build_single_workout_timeseries float_of_str w rs rd a = Ok b ->
  units b !! key = Some u ->
  exists k first rest,
    key = Some k /\
    List.filter (has_type k) (selection w rs) = first :: rest /\
    records b !! key = Some (first :: rest) /\
    u = rec_unit first.
Proof.
  intros H Hu. destruct (build_Ok _ _ _ _ _ _ H) as (src & -> & _ & Hin & Hout).
  destruct (decide (key ∈ type_keys (selection w rs))) as [Hk|Hk].
  - destruct (Hin _ Hk) as (k & first & -> & _ & Hf & HR & HU & _).
    simpl in HR, HU.
    destruct (List.filter (has_type k) (selection w rs)) as [|x rest] eqn:Hg;
      [discriminate |].
    injection Hf as ->. exists k, first, rest.
    repeat split; congruence.
  - destruct (Hout _ Hk) as (_ & HU & _). congruence.
Qed.

End Selection.

Lemma units_from_first_of_group_witness :
  exists k first rest,
    Some heart_rate = Some k /\
    List.filter (has_type k) (selection sample_workout variability_first)
    = first :: rest /\
    records (built sample_workout
               (build_single_workout_timeseries parse_decimal sample_workout
                  variability_first true (TsList ["Watch"]))) !! Some heart_rate
    = Some (first :: rest) /\
    Some "ms" = rec_unit first.
Proof.
  apply (units_from_first_of_group parse_decimal sample_workout variability_first
           true (TsList ["Watch"])); vm_compute; reflexivity.
Defined.

Lemma build_empty_source_list_witness :
  exists b,
    build_single_workout_timeseries parse_decimal sample_workout sample_records
      true (TsList []) = Ok b.
Proof.
  apply (proj2 (proj1 (build_empty_source_list parse_decimal sample_workout
                         sample_records true))).
  split; [vm_compute; reflexivity |].
  vm_compute. repeat constructor; eauto.
Defined.

Lemma build_empty_bundle_iff_witness :
  build_single_workout_timeseries parse_decimal sample_workout
    (sample_records ++ [logged_without_offset]) true (TsList ["Watch"])
  = Raise TypeError.
Proof.
  apply (proj2 (build_empty_bundle_iff parse_decimal sample_workout
                  (sample_records ++ [logged_without_offset]) true ["Watch"])).
  vm_compute. reflexivity.
Defined.

Lemma build_ignores_records_outside_witness :
  build_single_workout_timeseries parse_decimal sample_workout sample_records
    true (TsList ["Watch"])
  = build_single_workout_timeseries parse_decimal sample_workout
      (List.filter (fun r => dt_le (wk_start_date sample_workout) (start_date r)
                             && dt_le (start_date r) (wk_end_date sample_workout))
         sample_records) true (TsList ["Watch"]).
Proof.
  apply (proj2 (build_ignores_records_outside parse_decimal sample_workout
                  sample_records true (TsList ["Watch"]))).
  vm_compute. reflexivity.
Defined.

(** ** The builder: order of the input list *)

Lemma Permutation_filter_bool {A : Type} (p : A -> bool) (l l' : list A) :
  Permutation l l' -> Permutation (List.filter p l) (List.filter p l').
Proof.
  induction 1 as [|x l l' _ IH|x y l|l l' l'' _ IH1 _ IH2]; simpl.
  - reflexivity.
  - destruct (p x); [constructor |]; exact IH.
  - destruct (p x), (p y); try reflexivity. apply perm_swap.
  - etransitivity; eassumption.
Qed.

Lemma StronglySorted_Permutation_eq {A : Type} (R : A -> A -> Prop) (l1 l2 : list A) :
  StronglySorted R l1 -> StronglySorted R l2 -> Permutation l1 l2 ->
  (forall x y, In x l1 -> In y l1 -> R x y -> R y x -> x = y) ->
  l1 = l2.
Proof.
  intros H1; revert l2; induction H1 as [|x l1 Hs1 IH Hx]; intros l2 H2 Hp Hanti.
  - apply Permutation_nil in Hp. congruence.
  - destruct H2 as [|y l2 Hs2 Hy].
    + symmetry in Hp. apply Permutation_nil in Hp. discriminate.
    + assert (x = y) as <-.
      { assert (Hxin : In x (y :: l2)) by (eapply Permutation_in; [exact Hp | left; reflexivity]).
        assert (Hyin : In y (x :: l1))
          by (eapply Permutation_in; [symmetry; exact Hp | left; reflexivity]).
        destruct Hxin as [Heq|Hxin]; [congruence |].
        destruct Hyin as [Heq|Hyin]; [congruence |].
        rewrite Forall_forall in Hx, Hy.
        apply Hanti; [left; reflexivity | right; exact Hyin | |].
        - apply Hx, list_elem_of_In, Hyin.
        - apply Hy, list_elem_of_In, Hxin. }
      f_equal. apply IH; [exact Hs2 | eapply Permutation_cons_inv; exact Hp |].
      intros u v Hu Hv. apply Hanti; right; assumption.
Qed.

Lemma NoDup_map_injective {A B : Type} (f : A -> B) (l : list A) (x y : A) :
  NoDup (map f l) -> In x l -> In y l -> f x = f y -> x = y.
Proof.
  induction l as [|z l IH]; simpl; [intros _ [] |].
  rewrite NoDup_cons. intros [Hz Hnd] [<-|Hx] [<-|Hy] Heq.
  - reflexivity.
  - exfalso. apply Hz. rewrite Heq. apply list_elem_of_In, in_map. exact Hy.
  - exfalso. apply Hz. rewrite <- Heq. apply list_elem_of_In, in_map. exact Hx.
  - apply IH; assumption.
Qed.

Lemma forallb_Permutation {A : Type} (p : A -> bool) (l l' : list A) :
  Permutation l l' -> forallb p l = forallb p l'.
Proof.
  induction 1 as [|x l l' _ IH|x y l|l l' l'' _ IH1 _ IH2]; simpl.
  - reflexivity.
  - rewrite IH. reflexivity.
  - destruct (p x), (p y); reflexivity.
  - congruence.
Qed.

Section InputOrder.
Variable float_of_str : string -> option float.

(** The order of the input list matters only between records whose start
    dates have the same ISO text: when the records of the window have
    pairwise different texts, every rearrangement of the input gives the
    same outcome. *)
Theorem build_input_order_irrelevant (w : HKWorkout) (rs rs' : list HKRecord)
    (rd : bool) (a : ts_source_arg) :
  Permutation rs rs' ->
  NoDup (map (fun r => isoformat (start_date r)) (List.filter (in_window w) rs)) ->
  build_single_workout_timeseries float_of_str w rs rd a
  = build_single_workout_timeseries float_of_str w rs' rd a.
Proof.
  intros Hp Hnd.
  assert (Heq : selection w rs = selection w rs').
  { apply (StronglySorted_Permutation_eq
             (fun u v => str_lt (isoformat (start_date v)) (isoformat (start_date u)) = false)).
    - apply selection_ascending_text.
    - apply selection_ascending_text.
    - rewrite !selection_Permutation.
      apply Permutation_filter_bool. exact Hp.
    - intros x y Hx Hy Hxy Hyx.
      apply (NoDup_map_injective (fun r => isoformat (start_date r))
               (List.filter (in_window w) rs)).
      + exact Hnd.
      + eapply Permutation_in; [apply selection_Permutation | exact Hx].
      + eapply Permutation_in; [apply selection_Permutation | exact Hy].
      + apply str_lt_total; assumption. }
  destruct a as [|src| | |]; try reflexivity.
  rewrite !build_unfold, Heq, (forallb_Permutation _ _ _ Hp). reflexivity.
Qed.

End InputOrder.

Lemma build_input_order_irrelevant_witness :
  build_single_workout_timeseries parse_decimal sample_workout variability_first
    true (TsList ["Watch"])
  = build_single_workout_timeseries parse_decimal sample_workout (rev variability_first)
      true (TsList ["Watch"]).
Proof.
  apply build_input_order_irrelevant.
  - apply Permutation_rev.
  - vm_compute. repeat constructor; rewrite list_elem_of_In; simpl; intuition discriminate.
Defined.

(** ** Series: index, duplicates, sources *)

Lemma mask_select_map {A B : Type} (f : A -> B) (mask : list bool) (l : list A) :
  map f (mask_select mask l) = mask_select mask (map f l).
Proof.
  revert l; induction mask as [|m mask IH]; intros [|x l]; simpl; try reflexivity.
  destruct m; simpl; rewrite IH; reflexivity.
Qed.

Lemma keep_unseen_id seen ts :
  NoDup (map stamp ts) ->
  (forall e, In e ts -> ~ In (stamp e) (map utc_micros seen)) ->
  keep_unseen seen ts = ts.
Proof.
  revert seen; induction ts as [|e ts IH]; intros seen Hnd Hfresh; [reflexivity |].
  rewrite keep_unseen_cons. simpl in Hnd. apply NoDup_cons in Hnd as [He Hnd].
  destruct (existsb (dt_eq (fst e)) seen) eqn:Hseen.
  - apply existsb_dt_eq in Hseen. exfalso. apply (Hfresh e); [left; reflexivity | exact Hseen].
  - f_equal. apply IH; [exact Hnd |].
    intros e' He' [Heq|Hin].
    + apply He. rewrite list_elem_of_In. apply in_map_iff. exists e'.
      split; [symmetry; exact Heq | exact He'].
    + apply (Hfresh e'); [right; exact He' | exact Hin].
Qed.

Lemma filter_sublist_weaken {A : Type} (p q : A -> bool) (l : list A) :
  (forall x, p x = true -> q x = true) ->
  sublist (List.filter p l) (List.filter q l).
Proof.
  intros Hpq. induction l as [|x l IH]; simpl; [constructor |].
  destruct (p x) eqn:Hp.
  - rewrite (Hpq x Hp). apply sublist_skip, IH.
  - destruct (q x); [apply sublist_cons, IH | exact IH].
Qed.

Lemma mapM_sublist {A B : Type} (f : A -> result B) (l1 l2 : list A) (y1 y2 : list B) :
  sublist l1 l2 -> mapM f l1 = Ok y1 -> mapM f l2 = Ok y2 -> sublist y1 y2.
Proof.
  intros Hs; revert y1 y2; induction Hs as [|x l1 l2 _ IH|x l1 l2 _ IH];
    intros y1 y2 H1 H2; simpl in *.
  - injection H1 as <-. injection H2 as <-. constructor.
  - destruct (f x) as [y|]; simpl in *; [| discriminate].
    destruct (mapM f l1) as [z1|]; simpl in *; [| discriminate].
    destruct (mapM f l2) as [z2|]; simpl in *; [| discriminate].
    injection H1 as <-. injection H2 as <-. apply sublist_skip. eapply IH; reflexivity.
  - destruct (f x) as [y|]; simpl in *; [| discriminate].
    destruct (mapM f l2) as [z2|]; simpl in *; [| discriminate].
    injection H2 as <-. apply sublist_cons. eapply IH; [exact H1 | reflexivity].
Qed.

Lemma na_to_nan_idem v : na_to_nan (na_to_nan v) = na_to_nan v.
Proof.
  unfold na_to_nan. destruct (is_missing v) eqn:Hv; [reflexivity |].
  rewrite Hv. reflexivity.
Qed.

(** Whatever dtype is inferred, the series is the array up to writing
    missing values as NaN. *)
Lemma infer_objects_nan ts_array :
  map (fun e => (fst e, na_to_nan (snd e))) (infer_objects ts_array)
  = map (fun e => (fst e, na_to_nan (snd e))) ts_array.
Proof.
  unfold infer_objects. destruct (infers_str (map snd ts_array)); [| reflexivity].
  rewrite map_map. apply map_ext. intros e. simpl. rewrite na_to_nan_idem. reflexivity.
Qed.

Section SeriesShape.
Variable float_of_str : string -> option float.

Lemma pd_Series_index ts_array as_float ts :
  pd_Series float_of_str ts_array as_float = Ok ts -> map fst ts = map fst ts_array.
Proof.
  destruct as_float; [| intros [= <-]; apply infer_objects_index].
  intros H. apply pd_Series_float in H.
  induction H as [|row e l k [Hfst _] _ IH]; simpl; [reflexivity |].
  rewrite Hfst, IH. reflexivity.
Qed.

(** The index of a series is the list of start dates of the key's
    candidate records in the order of the selection; with
    [rem_duplicates] the dates marked by [duplicated] are taken out. *)
Theorem series_index (w : HKWorkout) (rs : list HKRecord) (rd : bool)
    (a : ts_source_arg) (b : workout_data) (k : string)
    (s : list (datetime * pyvalue)) :
  build_single_workout_timeseries float_of_str w rs rd a = Ok b ->
  timeseries b !! Some k = Some s ->
  exists src, a = TsList src /\
    let idx := map start_date (candidates k src (selection w rs)) in
    idx <> [] /\
    map fst s = if rd then mask_select (map negb (duplicated idx)) idx else idx.
Proof.
  intros H Hl.
  destruct (build_timeseries_Some _ _ _ _ _ _ _ _ H Hl)
    as (k' & src & [= <-] & -> & _ & Hc & Hs).
  exists src. split; [reflexivity |]. simpl. split.
  - destruct (candidates k src (selection w rs)); [congruence | discriminate].
  - unfold series_of in Hs. apply rbind_Ok in Hs as (ts & Hts & Hs).
    injection Hs as <-. apply pd_Series_index in Hts.
    rewrite map_map in Hts. simpl in Hts.
    destruct rd; [| exact Hts].
    unfold drop_duplicated. rewrite mask_select_map, Hts. reflexivity.
Qed.

(** On a series without repeated instants [rem_duplicates] changes
    nothing. *)
Theorem rem_duplicates_without_repeats (w : HKWorkout) (rs : list HKRecord)
    (a : ts_source_arg) (b : workout_data) (key : option string)
    (s : list (datetime * pyvalue)) :
  build_single_workout_timeseries float_of_str w rs false a = Ok b ->
  timeseries b !! key = Some s ->
  NoDup (map (fun e => utc_micros (fst e)) s) ->
  exists b',
    build_single_workout_timeseries float_of_str w rs true a = Ok b' /\
    timeseries b' !! key = Some s.
Proof.
  intros H Hl Hnd. exists (without_duplicates b).
  rewrite build_true_of_false, H. split; [reflexivity |].
  unfold without_duplicates; simpl. rewrite lookup_fmap, Hl. simpl.
  rewrite drop_duplicated_keep_unseen, keep_unseen_id; [reflexivity | exact Hnd |].
  intros e _ [].
Qed.

(** Listing more sources only adds entries to a series: when both calls
    return, the index of the series under the shorter list is a
    subsequence of the index under the longer one, and so are the entries
    themselves under a key that is not categorical.  Under a categorical
    key a missing value of the shorter series ([None]) can be NaN in the
    longer one, when the added sources bring the first string: the
    entries are a subsequence up to that rewriting. *)
Theorem series_grows_with_sources (w : HKWorkout) (rs : list HKRecord)
    (src src' : list string) (b b' : workout_data) (key : option string)
    (s : list (datetime * pyvalue)) :
  (forall x, x ∈ src -> x ∈ src') ->
  build_single_workout_timeseries float_of_str w rs false (TsList src) = Ok b ->
  build_single_workout_timeseries float_of_str w rs false (TsList src') = Ok b' ->
  timeseries b !! key = Some s ->
  exists s',
    timeseries b' !! key = Some s' /\
    sublist (map fst s) (map fst s') /\
    sublist (map (fun e => (fst e, na_to_nan (snd e))) s)
      (map (fun e => (fst e, na_to_nan (snd e))) s') /\
    (forall k, key = Some k -> is_substring "category" (str_lower k) = false ->
       sublist s s').
Proof.
  intros Hsub H H' Hl.
  destruct (build_timeseries_Some _ _ _ _ _ _ _ _ H Hl)
    as (k & src0 & -> & [= <-] & Hk & Hc & Hs).
  assert (Hcand : sublist (candidates k src (selection w rs))
                    (candidates k src' (selection w rs))).
  { apply filter_sublist_weaken. intros r Hr.
    apply andb_prop in Hr as [Ht Hf]. rewrite Ht. simpl.
    unfold from_source in *. destruct (source_name r) as [x|]; [| discriminate].
    apply bool_decide_eq_true in Hf. apply bool_decide_eq_true. auto. }
  destruct (build_timeseries_lookup _ _ _ _ _ _ _ H' Hk)
    as (k' & [= <-] & [[Hc' _]|[_ (s' & Hs' & Hl')]]).
  - exfalso. apply Hc. rewrite Hc' in Hcand. apply sublist_nil_r in Hcand. exact Hcand.
  - exists s'. split; [exact Hl' |].
    unfold series_of in Hs, Hs'.
    apply rbind_Ok in Hs as (ts & Hts & [= <-]).
    apply rbind_Ok in Hs' as (ts' & Hts' & [= <-]).
    assert (Hnum : is_category k = false -> sublist ts ts').
    { intros Hcat. rewrite Hcat in Hts, Hts'. simpl in Hts, Hts'.
      unfold pd_Series in Hts, Hts'.
      eapply mapM_sublist; [| exact Hts | exact Hts'].
      apply (fmap_sublist row_of). exact Hcand. }
    assert (Hnan : sublist (map (fun e => (fst e, na_to_nan (snd e))) ts)
                     (map (fun e => (fst e, na_to_nan (snd e))) ts')).
    { destruct (is_category k) eqn:Hcat.
      - simpl in Hts, Hts'. injection Hts as <-. injection Hts' as <-.
        rewrite !infer_objects_nan.
        apply (fmap_sublist (fun e => (fst e, na_to_nan (snd e)))).
        apply (fmap_sublist row_of). exact Hcand.
      - apply (fmap_sublist (fun e => (fst e, na_to_nan (snd e)))).
        apply Hnum. reflexivity. }
    split; [| split; [exact Hnan |]].
    + apply (fmap_sublist fst) in Hnan. rewrite !map_map in Hnan. exact Hnan.
    + intros k0 [= <-] Hcat. apply Hnum. exact Hcat.
Qed.

End SeriesShape.

Lemma series_index_witness :
  exists src, TsList ["Watch"; "Phone"] = TsList src /\
    let idx := map start_date
                 (candidates heart_rate src
                    (selection sample_workout sample_records)) in
    idx <> [] /\
    map fst (series_at
               (built sample_workout
                  (build_single_workout_timeseries parse_decimal sample_workout
                     sample_records true (TsList ["Watch"; "Phone"]))) heart_rate)
    = if true then mask_select (map negb (duplicated idx)) idx else idx.
Proof.
  apply (series_index parse_decimal sample_workout sample_records true
           (TsList ["Watch"; "Phone"])
           (built sample_workout
              (build_single_workout_timeseries parse_decimal sample_workout
                 sample_records true (TsList ["Watch"; "Phone"]))));
    vm_compute; reflexivity.
Defined.

Lemma rem_duplicates_without_repeats_witness :
  exists b',
    build_single_workout_timeseries parse_decimal sample_workout sample_records
      true (TsList ["Watch"]) = Ok b' /\
    timeseries b' !! Some heart_rate
    = Some (series_at
              (built sample_workout
                 (build_single_workout_timeseries parse_decimal sample_workout
                    sample_records false (TsList ["Watch"]))) heart_rate).
Proof.
  apply (rem_duplicates_without_repeats parse_decimal sample_workout sample_records
           (TsList ["Watch"])
           (built sample_workout
              (build_single_workout_timeseries parse_decimal sample_workout
                 sample_records false (TsList ["Watch"])))).
  - vm_compute. reflexivity.
  - vm_compute. reflexivity.
  - apply (bool_decide_unpack _). vm_compute. exact I.
Defined.

Lemma series_grows_with_sources_witness :
  exists s',
    timeseries (built sample_workout
                  (build_single_workout_timeseries parse_decimal sample_workout
                     stood_on_phone false (TsList ["Watch"; "Phone"])))
      !! Some stand_hour = Some s' /\
    sublist (map fst (series_at
                        (built sample_workout
                           (build_single_workout_timeseries parse_decimal sample_workout
                              stood_on_phone false (TsList ["Watch"]))) stand_hour))
      (map fst s') /\
    sublist (map (fun e => (fst e, na_to_nan (snd e)))
               (series_at
                  (built sample_workout
                     (build_single_workout_timeseries parse_decimal sample_workout
                        stood_on_phone false (TsList ["Watch"]))) stand_hour))
      (map (fun e => (fst e, na_to_nan (snd e))) s') /\
    (forall k, Some stand_hour = Some k ->
       is_substring "category" (str_lower k) = false ->
       sublist (series_at
                  (built sample_workout
                     (build_single_workout_timeseries parse_decimal sample_workout
                        stood_on_phone false (TsList ["Watch"]))) stand_hour) s').
Proof.
  apply (series_grows_with_sources parse_decimal sample_workout stood_on_phone
           ["Watch"] ["Watch"; "Phone"]
           (built sample_workout
              (build_single_workout_timeseries parse_decimal sample_workout
                 stood_on_phone false (TsList ["Watch"])))).
  - intros x Hx. apply list_elem_of_singleton in Hx as ->. left.
  - vm_compute. reflexivity.
  - vm_compute. reflexivity.
  - vm_compute. reflexivity.
Defined.

(** Under a categorical key the entries themselves need not be a
    subsequence: the watch alone gives [None], watch and phone give the
    label and NaN. *)
Example stand_hours_of_two_sources :
  map snd (series_at
             (built sample_workout
                (build_single_workout_timeseries parse_decimal sample_workout
                   stood_on_phone false (TsList ["Watch"]))) stand_hour)
  = [VNone] /\
  map snd (series_at
             (built sample_workout
                (build_single_workout_timeseries parse_decimal sample_workout
                   stood_on_phone false (TsList ["Watch"; "Phone"]))) stand_hour)
  = [VStr "HKCategoryValueAppleStandHourStood"; VFloat nan].
Proof. split; vm_compute; reflexivity. Qed.

(** ** The batch builder *)

Section Batch.
Variable float_of_str : string -> option float.

Lemma build_workouts_accepted ws rs n_threads rd a :
  pool_accepts n_threads ->
  build_workouts_timeseries float_of_str ws rs n_threads rd a
  = mapM (fun x => build_single_workout_timeseries float_of_str x rs rd a) ws.
Proof.
  unfold build_workouts_timeseries, pool_accepts.
  destruct n_threads as [n|]; [| reflexivity].
  intros Hn. destruct (Z.leb_spec n 0); [lia | reflexivity].
Qed.

(** The batch returns exactly the bundles of the single builds, in the
    order of the workouts: no build sees another's result. *)
Theorem build_workouts_pointwise (ws : list HKWorkout) (rs : list HKRecord)
    (n_threads : option Z) (rd : bool) (a : ts_source_arg) (bs : list workout_data) :
  pool_accepts n_threads ->
  (build_workouts_timeseries float_of_str ws rs n_threads rd a = Ok bs <->
   Forall2 (fun w b => build_single_workout_timeseries float_of_str w rs rd a = Ok b)
     ws bs).
Proof.
  intros Hn. rewrite build_workouts_accepted by assumption.
  split; [apply mapM_Ok_Forall2 | apply mapM_Forall2_Ok].
Qed.

(** One failing build fails the batch: the exception of the first
    workout (in input order) whose build raises is the exception of the
    batch, and the results of the other builds are dropped. *)
Theorem build_workouts_first_error (before after : list HKWorkout) (w : HKWorkout)
    (rs : list HKRecord) (n_threads : option Z) (rd : bool) (a : ts_source_arg)
    (e : exn) :
  pool_accepts n_threads ->
  Forall (fun x => is_ok (build_single_workout_timeseries float_of_str x rs rd a) = true)
    before ->
  build_single_workout_timeseries float_of_str w rs rd a = Raise e ->
  build_workouts_timeseries float_of_str (before ++ w :: after) rs n_threads rd a
  = Raise e.
Proof.
  intros Hn Hbefore Hw. rewrite build_workouts_accepted by assumption.
  apply mapM_first_error; assumption.
Qed.

(** Called without [ts_source], the batch builder returns the empty list
    for no workouts and raises [TypeError] for any other input. *)
Theorem build_workouts_default_source (ws : list HKWorkout) (rs : list HKRecord)
    (n_threads : option Z) (rd : bool) :
  pool_accepts n_threads ->
  build_workouts_timeseries float_of_str ws rs n_threads rd TsNone
  = match ws with
    | [] => Ok []
    | _ :: _ => Raise TypeError
    end.
Proof.
  intros Hn. rewrite build_workouts_accepted by assumption.
  destruct ws; reflexivity.
Qed.

End Batch.

Lemma build_workouts_pointwise_witness :
  build_workouts_timeseries parse_decimal [sample_workout] variability_first (Some 2)
    false (TsList ["Watch"])
  = Ok [built sample_workout
          (build_single_workout_timeseries parse_decimal sample_workout
             variability_first false (TsList ["Watch"]))].
Proof.
  apply (build_workouts_pointwise parse_decimal); [reflexivity |].
  constructor; [vm_compute; reflexivity | constructor].
Defined.

Lemma build_workouts_first_error_witness :
  build_workouts_timeseries parse_decimal
    ([early_workout] ++ sample_workout :: [early_workout])
    (sample_records ++ [mkHKRecord None None None None None
                          (at_time 10 1) (at_time 10 1) (at_time 10 1) VNone])
    None true (TsList ["Watch"])
  = Raise TypeError.
Proof.
  apply (build_workouts_first_error parse_decimal [early_workout]
           [early_workout] sample_workout).
  - exact I.
  - repeat constructor.
  - vm_compute. reflexivity.
Defined.

Lemma build_workouts_default_source_witness :
  build_workouts_timeseries parse_decimal [sample_workout] sample_records (Some 4) true TsNone
  = Raise TypeError.
Proof.
  apply (build_workouts_default_source parse_decimal [sample_workout] sample_records
           (Some 4) true).
  reflexivity.
Defined.

(** ** From the document to the bundles *)

Lemma load_xml_tag_Ok {T : Type} xml_root selected_tag
    (output_class : Element -> result T) n_threads objs :
  load_xml_tag xml_root selected_tag output_class n_threads = Ok objs ->
  mapM output_class (findall xml_root selected_tag) = Ok objs.
Proof.
  unfold load_xml_tag. destruct n_threads as [n|]; [| auto].
  destruct (n <=? 0); [discriminate | auto].
Qed.

Section Pipeline.
Variable parse_datetime : string -> option datetime.
Variable float_of_str : string -> option float.

(** When every [Record] element of the document carries a type and a
    unit, and the start dates of the loaded records and the start and end
    dates of the loaded workouts are either all offset-aware or all
    offset-naive (so that they can be compared), whatever was loaded from
    the document can be built: with any list of sources the batch builder
    returns one bundle per [Workout] element. *)
Theorem loaded_document_builds (xml_root : Element) (n_threads n_threads' : option Z)
    (rs : list HKRecord) (ws : list HKWorkout) (rd : bool) (src : list string)
    (aware : bool) :
  load_records parse_datetime float_of_str xml_root n_threads = Ok rs ->
  load_workouts parse_datetime float_of_str xml_root n_threads = Ok ws ->
  (forall x, In x (findall xml_root "Record") ->
     is_Some (el_attrib x !! "type") /\ is_Some (el_attrib x !! "unit")) ->
  (forall r, In r rs -> is_aware (start_date r) = aware) ->
  (forall w, In w ws ->
     is_aware (wk_start_date w) = aware /\ is_aware (wk_end_date w) = aware) ->
  pool_accepts n_threads' ->
  exists bs,
    build_workouts_timeseries float_of_str ws rs n_threads' rd (TsList src) = Ok bs /\
    length bs = length (findall xml_root "Workout").
Proof.
  intros Hrs Hws Hattr Hawr Haww Hn.
  apply load_xml_tag_Ok, mapM_Ok_Forall2 in Hrs.
  apply load_xml_tag_Ok, mapM_Ok_Forall2 in Hws.
  assert (Hrec : forall r, In r rs ->
            is_Some (rec_type r) /\ exists f, value r = VFloat f).
  { intros r Hr.
    destruct (Forall2_In_right _ _ _ _ Hrs Hr) as (x & Hx & Hinit).
    destruct (Hattr x Hx) as [Hty Hun].
    destruct (HKRecord_init_Ok_inv _ _ _ _ Hinit)
      as (Ht & _ & _ & _ & Hu & _ & _ & _ & Hfl & _).
    split; [rewrite Ht; exact Hty |].
    rewrite <- Hu in Hun. apply Hfl in Hun.
    destruct (value r); try discriminate. eauto. }
  assert (Hall : Forall (fun w => is_ok (build_single_workout_timeseries float_of_str
                                           w rs rd (TsList src)) = true) ws).
  { apply Forall_forall. intros w Hw. apply is_ok_true. apply build_total.
    - apply forallb_forall. intros r Hr. unfold window_evaluates.
      apply list_elem_of_In in Hw. destruct (Haww w Hw) as [-> ->].
      rewrite (Hawr r Hr). destruct aware; simpl; apply orb_true_r.
    - apply Forall_forall. intros r Hr.
      apply list_elem_of_In, selection_In in Hr as [Hr _].
      apply (Hrec r Hr).
    - intros k _ _. apply Forall_forall. intros r Hr.
      apply list_elem_of_In, filter_In in Hr as [Hr _].
      apply selection_In in Hr as [Hr _].
      destruct (Hrec r Hr) as [_ [f ->]]. simpl. eauto. }
  rewrite build_workouts_accepted by assumption.
  destruct (mapM_total _ _ Hall) as [bs Hbs]. exists bs. split; [exact Hbs |].
  apply mapM_Ok_Forall2 in Hbs.
  rewrite <- (Forall2_length _ _ _ Hbs). symmetry. eapply Forall2_length. exact Hws.
Qed.

End Pipeline.

Lemma loaded_document_builds_witness :
  exists bs,
    build_workouts_timeseries parse_decimal
      [built_workout (HKWorkout_init parse_export_date parse_decimal workout_without_source)]
      [built_record (HKRecord_init parse_export_date parse_decimal record_without_source)]
      (Some 2) true (TsList ["Watch"]) = Ok bs /\
    length bs = length (findall single_record_document "Workout").
Proof.
  apply (loaded_document_builds parse_export_date parse_decimal
           single_record_document None (Some 2) _ _ true ["Watch"] true).
  - vm_compute. reflexivity.
  - vm_compute. reflexivity.
  - intros x Hx. vm_compute in Hx. destruct Hx as [<-|[]].
    split; vm_compute; eauto.
  - intros r [<-|[]]. vm_compute. reflexivity.
  - intros w [<-|[]]. split; vm_compute; reflexivity.
  - reflexivity.
Defined.

(** ** The sort of the selection *)

(** What sorting on [isoformat] guarantees.  The comprehension and
    [sorted] of the builder yield [selection w rs] whenever the window
    test can be evaluated on every record, and raise [TypeError]
    otherwise; the selection holds exactly the records of the window,
    ascends in the ISO text of the start date, and keeps records of equal
    text in the order of the input list. *)
Theorem selection_sorted_on_text (w : HKWorkout) (rs : list HKRecord) :
  records_of_workout w rs
  = (if forallb (window_evaluates w) rs then Ok (selection w rs) else Raise TypeError) /\
  Permutation (selection w rs)
    (List.filter (fun r => dt_le (wk_start_date w) (start_date r)
                           && dt_le (start_date r) (wk_end_date w)) rs) /\
  StronglySorted
    (fun u v => String.ltb (isoformat (start_date v)) (isoformat (start_date u)) = false)
    (selection w rs) /\
  (forall text,
     List.filter (fun r => String.eqb (isoformat (start_date r)) text)
       (selection w rs)
     = List.filter (fun r => String.eqb (isoformat (start_date r)) text)
         (List.filter (fun r => dt_le (wk_start_date w) (start_date r)
                                && dt_le (start_date r) (wk_end_date w)) rs)).
Proof.
  split; [apply records_of_workout_spec |].
  split; [apply selection_Permutation |].
  split; [apply selection_ascending_text |].
  intros text. apply selection_stable.
Qed.

Lemma build_untyped_record_raises_witness :
  build_single_workout_timeseries parse_decimal sample_workout
    (sample_records ++ [mkHKRecord None None None None None
                          (at_time 10 1) (at_time 10 1) (at_time 10 1) VNone])
    true (TsList ["Watch"])
  = Raise TypeError.
Proof.
  apply (build_untyped_record_raises parse_decimal sample_workout _ true
           (TsList ["Watch"])
           (mkHKRecord None None None None None
              (at_time 10 1) (at_time 10 1) (at_time 10 1) VNone)).
  - apply in_or_app. right. left. reflexivity.
  - vm_compute. reflexivity.
  - reflexivity.
Defined.

(** ** ISO text and instants under one UTC offset *)

Lemma compare_append (p1 p2 r1 r2 : string) :
  String.length p1 = String.length p2 ->
  String.compare (p1 +:+ r1) (p2 +:+ r2)
  = lexc (String.compare p1 p2) (String.compare r1 r2).
Proof.
  revert p2; induction p1 as [|c1 p1 IH]; intros [|c2 p2] Hlen; simpl in *;
    try discriminate; [reflexivity |].
  destruct (Ascii.compare c1 c2); try reflexivity.
  apply IH. congruence.
Qed.

Lemma compare_same (s : string) : String.compare s s = Eq.
Proof.
  pose proof (String.compare_antisym s s) as H.
  destruct (String.compare s s); simpl in H; congruence.
Qed.

Lemma compare_separator (c : ascii) (r1 r2 : string) :
  String.compare (String c EmptyString +:+ r1) (String c EmptyString +:+ r2)
  = String.compare r1 r2.
Proof.
  rewrite compare_append by reflexivity. rewrite compare_same. reflexivity.
Qed.

Lemma length_append (a b : string) :
  String.length (a +:+ b) = (String.length a + String.length b)%nat.
Proof. induction a as [|c a IH]; simpl; [reflexivity | rewrite IH; reflexivity]. Qed.

Lemma zero_pad_length (w : nat) (n : Z) : String.length (zero_pad w n) = w.
Proof.
  revert n; induction w as [|w IH]; intros n; simpl; [reflexivity |].
  rewrite length_append, IH. simpl. lia.
Qed.

Lemma digit_char_compare (n m : Z) :
  Ascii.compare (digit_char n) (digit_char m) = (n mod 10 ?= m mod 10).
Proof.
  unfold Ascii.compare, digit_char.
  pose proof (Z.mod_pos_bound n 10 ltac:(lia)) as Hn.
  pose proof (Z.mod_pos_bound m 10 ltac:(lia)) as Hm.
  rewrite !N_ascii_embedding by lia.
  rewrite <- N2Z.inj_compare. rewrite !N2Z.inj_add, !Z2N.id by lia.
  change (Z.of_N 48) with 48.
  destruct (Z.compare_spec (n mod 10) (m mod 10)) as [H|H|H].
  - rewrite H. apply Z.compare_refl.
  - apply Z.compare_lt_iff. lia.
  - apply Z.compare_gt_iff. lia.
Qed.

Lemma zero_pad_compare (w : nat) (n m : Z) :
  0 <= n < 10 ^ Z.of_nat w -> 0 <= m < 10 ^ Z.of_nat w ->
  String.compare (zero_pad w n) (zero_pad w m) = (n ?= m).
Proof.
  revert n m; induction w as [|w IH]; intros n m Hn Hm.
  - simpl in *. assert (n = 0) by lia. assert (m = 0) by lia. subst. reflexivity.
  - rewrite Nat2Z.inj_succ, Z.pow_succ_r in Hn, Hm by lia.
    cbn [zero_pad]. rewrite compare_append by (rewrite !zero_pad_length; reflexivity).
    rewrite IH by (split; [apply Z.div_pos; lia | apply Z.div_lt_upper_bound; lia]).
    cbn [String.compare]. rewrite digit_char_compare.
    pose proof (Z.div_mod n 10 ltac:(lia)) as Dn.
    pose proof (Z.div_mod m 10 ltac:(lia)) as Dm.
    pose proof (Z.mod_pos_bound n 10 ltac:(lia)) as Bn.
    pose proof (Z.mod_pos_bound m 10 ltac:(lia)) as Bm.
    destruct (Z.compare_spec (n / 10) (m / 10)) as [H|H|H]; simpl.
    + destruct (Z.compare_spec (n mod 10) (m mod 10)) as [H'|H'|H']; symmetry.
      * apply Z.compare_eq_iff. lia.
      * apply Z.compare_lt_iff. lia.
      * apply Z.compare_gt_iff. lia.
    + symmetry. apply Z.compare_lt_iff. lia.
    + symmetry. apply Z.compare_gt_iff. lia.
Qed.

Lemma compare_field (w : nat) (n m : Z) (r1 r2 : string) :
  0 <= n < 10 ^ Z.of_nat w -> 0 <= m < 10 ^ Z.of_nat w ->
  String.compare (zero_pad w n +:+ r1) (zero_pad w m +:+ r2)
  = lexc (n ?= m) (String.compare r1 r2).
Proof.
  intros Hn Hm. rewrite compare_append by (rewrite !zero_pad_length; reflexivity).
  rewrite zero_pad_compare by assumption. reflexivity.
Qed.

(** The optional fraction followed by the offset text, which is empty
    or starts with a sign. *)
Lemma compare_fraction (us us' : Z) (rest : string) :
  0 <= us < 1000000 -> 0 <= us' < 1000000 ->
  (rest = "" \/ exists tail, rest = "+" +:+ tail \/ rest = "-" +:+ tail) ->
  String.compare
    ((if us =? 0 then "" else "." +:+ zero_pad 6 us) +:+ rest)
    ((if us' =? 0 then "" else "." +:+ zero_pad 6 us') +:+ rest)
  = (us ?= us').
Proof.
  intros Hus Hus' Hrest.
  destruct (Z.eqb_spec us 0) as [->|Hne], (Z.eqb_spec us' 0) as [->|Hne'].
  - cbn [String.append]. apply compare_same.
  - transitivity Lt; [| symmetry; apply Z.compare_lt_iff; lia].
    destruct Hrest as [-> | [tail [-> | ->]]]; reflexivity.
  - transitivity Gt; [| symmetry; apply Z.compare_gt_iff; lia].
    destruct Hrest as [-> | [tail [-> | ->]]]; reflexivity.
  - change (("." +:+ zero_pad 6 us) +:+ rest)
      with ("." +:+ (zero_pad 6 us +:+ rest)).
    change (("." +:+ zero_pad 6 us') +:+ rest)
      with ("." +:+ (zero_pad 6 us' +:+ rest)).
    rewrite compare_separator, compare_field by (simpl; lia).
    rewrite compare_same. destruct (us ?= us'); reflexivity.
Qed.

Lemma offset_text_shape (o : option Z) :
  offset_text o = "" \/
  exists tail, offset_text o = "+" +:+ tail \/ offset_text o = "-" +:+ tail.
Proof.
  destruct o as [off|]; [| left; reflexivity]. right. unfold offset_text.
  destruct (off <? 0); eexists; [right | left]; reflexivity.
Qed.

Lemma isoformat_compare (a b : datetime) :
  valid_datetime a -> valid_datetime b -> utcoffset a = utcoffset b ->
  String.compare (isoformat a) (isoformat b)
  = lexc (year a ?= year b) (lexc (month a ?= month b) (lexc (day a ?= day b)
      (lexc (hour a ?= hour b) (lexc (minute a ?= minute b)
         (lexc (second a ?= second b) (microsecond a ?= microsecond b)))))).
Proof.
  intros (Hy & Hm & Hd & Hh & Hmi & Hs & Hus) (Hy' & Hm' & Hd' & Hh' & Hmi' & Hs' & Hus') Hoff.
  assert (Hdm : forall y m, days_in_month y m <= 31).
  { intros y m. unfold days_in_month.
    destruct (m =? 2); [destruct (is_leap y); lia |].
    destruct ((m =? 4) || (m =? 6) || (m =? 9) || (m =? 11)); lia. }
  pose proof (Hdm (year a) (month a)). pose proof (Hdm (year b) (month b)).
  unfold isoformat. rewrite <- Hoff.
  repeat (first [ rewrite compare_field by (simpl; lia)
                | rewrite compare_separator ]).
  rewrite compare_fraction; [reflexivity | lia | lia |].
  apply offset_text_shape.
Qed.

Lemma lex_combine (B hi lo hi' lo' : Z) :
  0 <= lo < B -> 0 <= lo' < B ->
  (hi * B + lo ?= hi' * B + lo') = lexc (hi ?= hi') (lo ?= lo').
Proof.
  intros Hlo Hlo'.
  destruct (Z.compare_spec hi hi') as [->|H|H]; simpl.
  - apply Z.add_compare_mono_l.
  - apply Z.compare_lt_iff. nia.
  - apply Z.compare_gt_iff. nia.
Qed.

Lemma div_step (k y : Z) :
  0 < k -> y / k - (y - 1) / k = if y mod k =? 0 then 1 else 0.
Proof.
  intros Hk. destruct (Z.eqb_spec (y mod k) 0) as [H|H].
  - assert (Hy : y = k * (y / k)) by (pose proof (Z.div_mod y k); lia).
    assert (Hq : (y - 1) / k = y / k - 1).
    { symmetry. apply (Z.div_unique _ _ _ (k - 1)); lia. }
    lia.
  - pose proof (Z.div_mod y k ltac:(lia)) as Hy.
    pose proof (Z.mod_pos_bound y k Hk) as Hb.
    assert (Hq : (y - 1) / k = y / k).
    { symmetry. apply (Z.div_unique _ _ _ (y mod k - 1)); lia. }
    lia.
Qed.

Lemma mod_refines (k j y : Z) : 0 < k -> 0 < j -> y mod (k * j) = 0 -> y mod k = 0.
Proof.
  intros Hk Hj H. apply Z.mod_divide in H; [| lia].
  apply Z.mod_divide; [lia |].
  eapply Z.divide_trans; [| exact H]. exists j. lia.
Qed.

Lemma days_before_year_succ (y : Z) :
  days_before_year (y + 1) = days_before_year y + 365 + leap_day y.
Proof.
  unfold days_before_year, leap_day, is_leap. cbv zeta.
  replace (y + 1 - 1) with y by lia.
  pose proof (div_step 4 y ltac:(lia)) as H4.
  pose proof (div_step 100 y ltac:(lia)) as H100.
  pose proof (div_step 400 y ltac:(lia)) as H400.
  pose proof (mod_refines 4 25 y ltac:(lia) ltac:(lia)) as R1.
  pose proof (mod_refines 100 4 y ltac:(lia) ltac:(lia)) as R2.
  change (4 * 25) with 100 in R1. change (100 * 4) with 400 in R2.
  revert H4 H100 H400.
  destruct (Z.eqb_spec (y mod 4) 0), (Z.eqb_spec (y mod 100) 0),
    (Z.eqb_spec (y mod 400) 0); simpl; lia.
Qed.

Lemma days_before_year_mono (y y' : Z) :
  y <= y' -> days_before_year y <= days_before_year y'.
Proof.
  intros H. unfold days_before_year. cbv zeta. Z.div_mod_to_equations. lia.
Qed.

Lemma days_in_month_bounds (y m : Z) : 28 <= days_in_month y m <= 31.
Proof.
  unfold days_in_month.
  destruct (m =? 2); [destruct (is_leap y); lia |].
  destruct ((m =? 4) || (m =? 6) || (m =? 9) || (m =? 11)); lia.
Qed.

Lemma days_before_month_succ (y m : Z) :
  1 <= m -> days_before_month y (m + 1) = days_before_month y m + days_in_month y m.
Proof.
  intros Hm. unfold days_before_month.
  replace (m + 1 - 1) with m by lia.
  replace (Z.to_nat m) with (S (Z.to_nat (m - 1))) by lia.
  cbn [days_before_month_aux]. f_equal. f_equal. lia.
Qed.

Lemma days_before_month_mono (y m m' : Z) :
  1 <= m <= m' -> days_before_month y m <= days_before_month y m'.
Proof.
  intros [Hm Hmm]. revert m' Hmm.
  apply (Zlt_lower_bound_ind (fun m' => days_before_month y m <= days_before_month y m') m).
  intros x IH Hx. destruct (Z.eq_dec x m) as [->|Hne]; [lia |].
  replace x with ((x - 1) + 1) by lia.
  rewrite days_before_month_succ by lia.
  pose proof (days_in_month_bounds y (x - 1)).
  assert (days_before_month y m <= days_before_month y (x - 1)) by (apply IH; lia).
  lia.
Qed.

Lemma days_before_month_end (y : Z) : days_before_month y 13 = 365 + leap_day y.
Proof.
  unfold days_before_month, leap_day.
  change (Z.to_nat (13 - 1)) with 12%nat.
  unfold days_before_month_aux, days_in_month. simpl.
  destruct (is_leap y); reflexivity.
Qed.

Lemma ymd2ord_compare (y m d y' m' d' : Z) :
  1 <= y -> 1 <= y' -> 1 <= m <= 12 -> 1 <= m' <= 12 ->
  1 <= d <= days_in_month y m -> 1 <= d' <= days_in_month y' m' ->
  (ymd2ord y m d ?= ymd2ord y' m' d')
  = lexc (y ?= y') (lexc (m ?= m') (d ?= d')).
Proof.
  intros Hy Hy' Hm Hm' Hd Hd'. unfold ymd2ord.
  assert (Hday : forall y m d, 1 <= m <= 12 -> 1 <= d <= days_in_month y m ->
            1 <= days_before_month y m + d <= 365 + leap_day y).
  { intros y0 m0 d0 Hm0 Hd0.
    pose proof (days_before_month_mono y0 1 m0 ltac:(lia)) as Hlo.
    change (days_before_month y0 1) with 0 in Hlo.
    pose proof (days_before_month_mono y0 (m0 + 1) 13 ltac:(lia)) as Hhi.
    rewrite days_before_month_succ, days_before_month_end in Hhi by lia. lia. }
  pose proof (Hday y m d Hm Hd) as Ha.
  pose proof (Hday y' m' d' Hm' Hd') as Hb.
  destruct (Z.compare_spec y y') as [<-|Hlt|Hgt]; simpl.
  - destruct (Z.compare_spec m m') as [<-|Hlt|Hgt]; simpl.
    + rewrite <- !Z.add_assoc. rewrite !Z.add_compare_mono_l. reflexivity.
    + apply Z.compare_lt_iff.
      pose proof (days_before_month_mono y (m + 1) m' ltac:(lia)) as Hmono.
      rewrite days_before_month_succ in Hmono by lia. lia.
    + apply Z.compare_gt_iff.
      pose proof (days_before_month_mono y (m' + 1) m ltac:(lia)) as Hmono.
      rewrite days_before_month_succ in Hmono by lia. lia.
  - apply Z.compare_lt_iff.
    pose proof (days_before_year_mono (y + 1) y' ltac:(lia)) as Hmono.
    rewrite days_before_year_succ in Hmono. lia.
  - apply Z.compare_gt_iff.
    pose proof (days_before_year_mono (y' + 1) y ltac:(lia)) as Hmono.
    rewrite days_before_year_succ in Hmono. lia.
Qed.

Lemma utc_micros_compare (a b : datetime) :
  valid_datetime a -> valid_datetime b -> utcoffset a = utcoffset b ->
  (utc_micros a ?= utc_micros b)
  = lexc (year a ?= year b) (lexc (month a ?= month b) (lexc (day a ?= day b)
      (lexc (hour a ?= hour b) (lexc (minute a ?= minute b)
         (lexc (second a ?= second b) (microsecond a ?= microsecond b)))))).
Proof.
  intros (Hy & Hm & Hd & Hh & Hmi & Hs & Hus) (Hy' & Hm' & Hd' & Hh' & Hmi' & Hs' & Hus') Hoff.
  unfold utc_micros. rewrite <- Hoff.
  rewrite lex_combine by lia.
  rewrite lex_combine by lia.
  replace ((ymd2ord (year a) (month a) (day a) * 24 + hour a) * 60 + minute a
             - default 0 (utcoffset a)
           ?= (ymd2ord (year b) (month b) (day b) * 24 + hour b) * 60 + minute b
              - default 0 (utcoffset a))
    with ((ymd2ord (year a) (month a) (day a) * 24 + hour a) * 60 + minute a
          ?= (ymd2ord (year b) (month b) (day b) * 24 + hour b) * 60 + minute b).
  2:{ unfold Z.sub. rewrite !(Z.add_comm _ (- default 0 (utcoffset a))).
      rewrite Z.add_compare_mono_l. reflexivity. }
  rewrite lex_combine by lia.
  rewrite lex_combine by lia.
  rewrite ymd2ord_compare by lia.
  destruct (year a ?= year b), (month a ?= month b), (day a ?= day b),
    (hour a ?= hour b), (minute a ?= minute b); reflexivity.
Qed.

(** For well-formed timestamps of one UTC offset the ISO text orders as
    the instants do. *)
Lemma isoformat_orders_instants (a b : datetime) :
  valid_datetime a -> valid_datetime b -> utcoffset a = utcoffset b ->
  str_lt (isoformat a) (isoformat b) = dt_lt a b.
Proof.
  intros Ha Hb Hoff. unfold str_lt, String.ltb, dt_lt, Z.ltb.
  rewrite isoformat_compare, utc_micros_compare by assumption. reflexivity.
Qed.

(** ** The selection in time order *)

Lemma sorted_stable_on {A K : Type} (key : A -> K) (lt : K -> K -> bool)
    (p : A -> bool) (l : list A) :
  (forall x y, In x l -> In y l -> p x = true -> p y = true ->
     lt (key x) (key y) = false) ->
  List.filter p (sorted key lt l) = List.filter p l.
Proof.
  induction l as [|x l IH]; intros Hp; simpl; [reflexivity |].
  rewrite insert_sorted_filter.
  - simpl. rewrite IH; [reflexivity |].
    intros u v Hu Hv. apply Hp; right; assumption.
  - intros y Hy Hpy Hpx. apply Hp; try assumption.
    + right. apply (sorted_In key lt). exact Hy.
    + left. reflexivity.
Qed.

Lemma StronglySorted_impl_on {A : Type} (R R' : A -> A -> Prop) (l : list A) :
  StronglySorted R l ->
  (forall x y, In x l -> In y l -> R x y -> R' x y) ->
  StronglySorted R' l.
Proof.
  induction 1 as [|x l Hs IH Hx]; intros Himp; constructor.
  - apply IH. intros u v Hu Hv. apply Himp; right; assumption.
  - rewrite Forall_forall in *. intros y Hy.
    apply Himp; [left; reflexivity | right; apply list_elem_of_In; exact Hy |].
    apply Hx. exact Hy.
Qed.

(** When the records of the window carry well-formed start dates under
    one UTC offset, the selection is in ascending order of time, and
    records of the same instant keep the order of the input list. *)
Theorem selection_chronological (w : HKWorkout) (rs : list HKRecord) :
  (forall r, In r rs -> in_window w r = true -> valid_datetime (start_date r)) ->
  (forall r r', In r rs -> In r' rs -> in_window w r = true -> in_window w r' = true ->
     utcoffset (start_date r) = utcoffset (start_date r')) ->
  StronglySorted (fun u v => dt_le (start_date u) (start_date v) = true)
    (selection w rs) /\
  (forall t,
     List.filter (fun r => dt_eq (start_date r) t) (selection w rs)
     = List.filter (fun r => dt_eq (start_date r) t) (List.filter (in_window w) rs)).
Proof.
  intros Hvalid Hoff.
  assert (Hord : forall u v,
            In u (List.filter (in_window w) rs) -> In v (List.filter (in_window w) rs) ->
            str_lt (isoformat (start_date v)) (isoformat (start_date u))
            = dt_lt (start_date v) (start_date u)).
  { intros u v Hu Hv. apply filter_In in Hu as [Hu Hwu]. apply filter_In in Hv as [Hv Hwv].
    apply isoformat_orders_instants; auto. }
  split.
  - apply (StronglySorted_impl_on
             (fun u v => str_lt (isoformat (start_date v)) (isoformat (start_date u)) = false)).
    + apply selection_ascending_text.
    + intros u v Hu Hv Huv.
      rewrite Hord in Huv
        by (eapply Permutation_in; [apply selection_Permutation | assumption]).
      unfold dt_lt in Huv. unfold dt_le. lia.
  - intros t. unfold selection.
    apply (sorted_stable_on (fun x => isoformat (start_date x)) str_lt).
    intros x y Hx Hy Hpx Hpy.
    rewrite (Hord y x Hy Hx). apply dt_eq_stamp in Hpx, Hpy.
    unfold dt_lt. lia.
Qed.

Lemma selection_chronological_witness :
  StronglySorted (fun u v => dt_le (start_date u) (start_date v) = true)
    (selection sample_workout variability_first).
Proof.
  apply (selection_chronological sample_workout variability_first).
  - intros r Hr _. simpl in Hr. destruct Hr as [<-|[<-|[]]];
      unfold valid_datetime; cbn; lia.
  - intros r r' Hr Hr' _ _. simpl in Hr, Hr'.
    destruct Hr as [<-|[<-|[]]]; destruct Hr' as [<-|[<-|[]]]; reflexivity.
Defined.

(** ** Keys and numeric series *)

Section KeysAndValues.
Variable float_of_str : string -> option float.

(** The keys of a returned bundle are exactly the types of the records
    that start inside the workout. *)
Theorem bundle_keys_are_selected_types (w : HKWorkout) (rs : list HKRecord) (rd : bool)
    (a : ts_source_arg) (b : workout_data) (key : option string) :
  build_single_workout_timeseries float_of_str w rs rd a = Ok b ->
  (key ∈ dom (records b) <->
   exists r, In r rs /\ in_window w r = true /\ rec_type r = key).
Proof.
  intros H. rewrite (build_dom_records _ _ _ _ _ _ key H), elem_of_type_keys.
  split; intros (r & Hr & Ht); exists r.
  - apply selection_In in Hr as [Hr Hw]. auto.
  - destruct Ht as [Hw Ht]. split; [| exact Ht].
    apply selection_In. auto.
Qed.

Lemma pd_Series_floats (rows : list HKRecord) (as_float : bool) :
  Forall (fun r => is_float (value r) = true) rows ->
  pd_Series float_of_str (map row_of rows) as_float = Ok (map row_of rows).
Proof.
  intros HF. destruct as_float.
  2:{ unfold pd_Series, infer_objects, infers_str.
      replace (existsb is_str (map snd (map row_of rows))) with false; [reflexivity |].
      symmetry. induction HF as [|r rows Hr _ IH]; simpl; [reflexivity |].
      rewrite IH. destruct (value r); try discriminate. reflexivity. }
  unfold pd_Series.
  induction HF as [|r rows Hr _ IH]; simpl; [reflexivity |].
  destruct (value r) eqn:Hv; try discriminate. simpl.
  rewrite IH. simpl. unfold row_of. rewrite Hv. reflexivity.
Qed.

(** When the candidate records of a key hold floats (records constructed
    with a unit do), the series built without [rem_duplicates] is exactly
    the list of their start dates and values in the order of the
    selection: converting to float changes nothing. *)
Theorem numeric_series_unchanged (w : HKWorkout) (rs : list HKRecord)
    (a : ts_source_arg) (b : workout_data) (k : string)
    (s : list (datetime * pyvalue)) :
  build_single_workout_timeseries float_of_str w rs false a = Ok b ->
  timeseries b !! Some k = Some s ->
  exists src, a = TsList src /\
    (Forall (fun r => is_float (value r) = true)
       (candidates k src (selection w rs)) ->
     s = map (fun r => (start_date r, value r))
           (candidates k src (selection w rs))).
Proof.
  intros H Hl.
  destruct (build_timeseries_Some _ _ _ _ _ _ _ _ H Hl)
    as (k' & src & [= <-] & -> & _ & _ & Hs).
  exists src. split; [reflexivity |]. intros HF.
  unfold series_of in Hs. rewrite (pd_Series_floats _ _ HF) in Hs.
  simpl in Hs. injection Hs as <-. reflexivity.
Qed.

End KeysAndValues.

Lemma bundle_keys_are_selected_types_witness :
  Some heart_rate_variability
  ∈ dom (records (built sample_workout
                    (build_single_workout_timeseries parse_decimal sample_workout
                       variability_first true (TsList ["Watch"])))).
Proof.
  apply (bundle_keys_are_selected_types parse_decimal sample_workout variability_first
           true (TsList ["Watch"])).
  - vm_compute. reflexivity.
  - exists (sample heart_rate_variability "Watch" (Some "ms") 10 2 (VFloat 38)).
    split; [right; left; reflexivity |]. split; [vm_compute |]; reflexivity.
Defined.

Lemma numeric_series_unchanged_witness :
  exists src, TsList ["Watch"] = TsList src /\
    (Forall (fun r => is_float (value r) = true)
       (candidates heart_rate src (selection sample_workout variability_first)) ->
     series_at (built sample_workout
                  (build_single_workout_timeseries parse_decimal sample_workout
                     variability_first false (TsList ["Watch"]))) heart_rate
     = map (fun r => (start_date r, value r))
         (candidates heart_rate src (selection sample_workout variability_first))).
Proof.
  apply (numeric_series_unchanged parse_decimal sample_workout variability_first
           (TsList ["Watch"])
           (built sample_workout
              (build_single_workout_timeseries parse_decimal sample_workout
                 variability_first false (TsList ["Watch"]))));
    vm_compute; reflexivity.
Defined.
